(** * QtTwitch: the IRC message parser and the gateway's rate limiting

    A shallow embedding of [QtTwitch/parser.py] and [QtTwitch/gateway.py].

    Python strings are modelled by [string]; a character is a code point
    below 256.  Python objects that can stand in one variable with several
    types ([None], a [str], an [int], a [dict], a [list]) are modelled by
    the inductive [pyobj].  Exceptions are values of [exn]. *)

From Stdlib Require Import ZArith NArith Lia Bool Ascii String DecimalString.
From stdpp Require Import base list gmap strings.


(** ** Python exceptions and results *)

Inductive exn :=
| ValueError (msg : string)
| AttributeError
| TypeError
| IndexError
| KeyError
| ConnectionError
| ConnectionAbortedError (msg : string).

Inductive result (A : Type) :=
| Return (a : A)
| Raise (e : exn).
Arguments Return {A} a.
Arguments Raise {A} e.

Definition rbind {A B} (r : result A) (f : A -> result B) : result B :=
  match r with
  | Return a => f a
  | Raise e => Raise e
  end.

Notation "x <- r ;; k" := (rbind r (fun x => k))
  (at level 100, r at next level, right associativity).

(** ** The string methods the sources use *)

Module Py.

Definition code (a : ascii) : N := N_of_ascii a.

Definition CR : ascii := ascii_of_N 13.
Definition LF : ascii := ascii_of_N 10.
Definition CRLF : string := String CR (String LF EmptyString).

(** [str.startswith] *)
Fixpoint startswith (s p : string) : bool :=
  match p, s with
  | EmptyString, _ => true
  | String a p', String b s' => if Ascii.eqb a b then startswith s' p' else false
  | String _ _, EmptyString => false
  end.

(** [str.endswith] *)
Definition endswith (s p : string) : bool :=
  String.eqb (substring (String.length s - String.length p) (String.length p) s) p
  && (String.length p <=? String.length s)%nat.

(** [str.lower] on one code point below 256: A-Z and the Latin-1 capitals
    (192-222 but for the multiplication sign 215) move up by 32. *)
Definition lower_char (a : ascii) : ascii :=
  let n := code a in
  if ((65 <=? n) && (n <=? 90) || (192 <=? n) && (n <=? 222) && negb (n =? 215))%N
  then ascii_of_N (n + 32) else a.

Fixpoint lower (s : string) : string :=
  match s with
  | EmptyString => EmptyString
  | String a s' => String (lower_char a) (lower s')
  end.

(** [str.isdigit] on one code point below 256: 0-9 and the superscripts
    two, three and one. *)
Definition isdigit_char (a : ascii) : bool :=
  let n := code a in
  ((48 <=? n) && (n <=? 57) || (n =? 178) || (n =? 179) || (n =? 185))%N.

Fixpoint all_chars (p : ascii -> bool) (s : string) : bool :=
  match s with
  | EmptyString => true
  | String a s' => p a && all_chars p s'
  end.

(** [str.isdigit]: false on the empty string. *)
Definition isdigit (s : string) : bool :=
  match s with
  | EmptyString => false
  | _ => all_chars isdigit_char s
  end.

Definition is_decimal (a : ascii) : bool :=
  let n := code a in ((48 <=? n) && (n <=? 57))%N.

Fixpoint int_digits (acc : N) (s : string) : N :=
  match s with
  | EmptyString => acc
  | String a s' => int_digits (10 * acc + (code a - 48))%N s'
  end.

(** [int(s)] for a string of digits; the superscript digits satisfy
    [isdigit] and are refused by [int]. *)
Definition int (s : string) : result N :=
  match s with
  | EmptyString => Raise (ValueError "invalid literal for int()")
  | _ => if all_chars is_decimal s then Return (int_digits 0 s)
         else Raise (ValueError "invalid literal for int()")
  end.

(** [str(n)] for a non-negative [int]. *)
Definition str_of_int (n : N) : string :=
  NilZero.string_of_uint (N.to_uint n).

(** [s.split(sep, maxsplit)] for a one-character separator; [None] as
    [maxsplit] is no bound. *)
Fixpoint split_from (sep : ascii) (maxsplit : option nat) (s : string)
  : string * list string :=
  match s with
  | EmptyString => (EmptyString, [])
  | String a s' =>
      if Ascii.eqb a sep && negb (bool_decide (maxsplit = Some 0%nat))
      then let '(h, t) := split_from sep (Nat.pred <$> maxsplit) s' in
           (EmptyString, h :: t)
      else let '(h, t) := split_from sep maxsplit s' in
           (String a h, t)
  end.

Definition split (sep : ascii) (maxsplit : option nat) (s : string) : list string :=
  let '(h, t) := split_from sep maxsplit s in h :: t.

(** [s[n:]] *)
Fixpoint slice_from (n : nat) (s : string) : string :=
  match n, s with
  | O, _ => s
  | S n', String _ s' => slice_from n' s'
  | S _, EmptyString => EmptyString
  end.

(** [l[-1]] on a list that [split] returned (never empty). *)
Fixpoint last_item (h : string) (l : list string) : string :=
  match l with
  | [] => h
  | x :: l' => last_item x l'
  end.

End Py.

(** ** A backtracking matcher for the constructs of [Parser.PATTERN]

    Python's [re] tries alternatives in order and backtracks; the matcher
    is written in continuation-passing style so that the first success in
    that order is the one returned.  [re.match] anchors at the start of the
    string only. *)

Module Re.

Inductive charclass :=
| AnyChar                (* [.] : anything but a line feed *)
| WordChar               (* [\w] *)
| DigitChar              (* [\d] *)
| Lit (c : ascii).

(** [\w] on code points below 256: letters, digits, the underscore, and
    the Latin-1 letters and numerics Python's Unicode tables count in. *)
Definition is_word (a : ascii) : bool :=
  let n := Py.code a in
  ((48 <=? n) && (n <=? 57) || (65 <=? n) && (n <=? 90) || (n =? 95)
   || (97 <=? n) && (n <=? 122)
   || (n =? 170) || (n =? 178) || (n =? 179) || (n =? 181) || (n =? 185)
   || (n =? 186) || (188 <=? n) && (n <=? 190)
   || (192 <=? n) && (n <=? 214) || (216 <=? n) && (n <=? 246)
   || (248 <=? n) && (n <=? 255))%N.

Definition accepts (c : charclass) (a : ascii) : bool :=
  match c with
  | AnyChar => negb (Ascii.eqb a Py.LF)
  | WordChar => is_word a
  | DigitChar => Py.is_decimal a
  | Lit b => Ascii.eqb a b
  end.

Inductive regex :=
| Eps
| Chr (c : charclass)
| Cat (r1 r2 : regex)
| Alt (r1 r2 : regex)            (* [r1|r2], left first *)
| Opt (r : regex)                (* [(?:r)?], greedy *)
| Star (c : charclass)           (* [c*], greedy *)
| LazyStar (c : charclass)       (* [c*?] *)
| Plus (c : charclass)           (* [c+], greedy *)
| Named (name : string) (r : regex).   (* [(?P<name>r)] *)

Section Exec.
Context {R : Type}.

(** [c*]: take as many characters as possible, give back one at a time. *)
Fixpoint star_greedy (c : charclass) (s : string) (k : string -> option R)
  : option R :=
  match s with
  | String a s' =>
      if accepts c a
      then match star_greedy c s' k with
           | Some x => Some x
           | None => k s
           end
      else k s
  | EmptyString => k s
  end.

(** [c*?]: take as few characters as possible, one more on failure. *)
Fixpoint star_lazy (c : charclass) (s : string) (k : string -> option R)
  : option R :=
  match k s with
  | Some x => Some x
  | None =>
      match s with
      | String a s' => if accepts c a then star_lazy c s' k else None
      | EmptyString => None
      end
  end.

(** The text between two positions of the subject. *)
Definition consumed (s s' : string) : string :=
  substring 0 (String.length s - String.length s') s.

Fixpoint exec (r : regex) (s : string) (caps : gmap string string)
    (k : string -> gmap string string -> option R) : option R :=
  match r with
  | Eps => k s caps
  | Chr c =>
      match s with
      | String a s' => if accepts c a then k s' caps else None
      | EmptyString => None
      end
  | Cat r1 r2 => exec r1 s caps (fun s' caps' => exec r2 s' caps' k)
  | Alt r1 r2 =>
      match exec r1 s caps k with
      | Some x => Some x
      | None => exec r2 s caps k
      end
  | Opt r1 =>
      match exec r1 s caps k with
      | Some x => Some x
      | None => k s caps
      end
  | Star c => star_greedy c s (fun s' => k s' caps)
  | LazyStar c => star_lazy c s (fun s' => k s' caps)
  | Plus c =>
      match s with
      | String a s' =>
          if accepts c a then star_greedy c s' (fun s'' => k s'' caps) else None
      | EmptyString => None
      end
  | Named name r1 =>
      exec r1 s caps (fun s' caps' => k s' (<[name := consumed s s']> caps'))
  end.
End Exec.

(** [pattern.match(s)]: the groups that took part in the first match. *)
Definition match_ (r : regex) (s : string) : option (gmap string string) :=
  exec r s ∅ (fun _ caps => Some caps).

(** The named groups of a pattern, in order. *)
Fixpoint group_names (r : regex) : list string :=
  match r with
  | Cat r1 r2 | Alt r1 r2 => group_names r1 ++ group_names r2
  | Opt r1 => group_names r1
  | Named name r1 => name :: group_names r1
  | _ => []
  end.

Definition cat (rs : list regex) : regex := foldr Cat Eps rs.

(** The groups that every path through a pattern captures. *)
Fixpoint always_named (r : regex) : list string :=
  match r with
  | Cat r1 r2 => always_named r1 ++ always_named r2
  | Named name r1 => name :: always_named r1
  | _ => []
  end.

End Re.

(** ** Python objects *)

Inductive pyobj :=
| PNone
| PStr (s : string)
| PInt (n : N)
| PDict (d : gmap string string)
| PList (l : list string).

(** [match.groupdict()]: every named group of the pattern is a key; a
    group that took no part in the match maps to [None]. *)
Definition groupdict (r : Re.regex) (caps : gmap string string) : gmap string pyobj :=
  foldr (fun name d => <[name := from_option PStr PNone (caps !! name)]> d)
        ∅ (Re.group_names r).

(** The formatting of a value inside an f-string. *)
Definition format (o : pyobj) : string :=
  match o with
  | PNone => "None"
  | PStr s => s
  | PInt n => Py.str_of_int n
  | PDict _ => "{...}"
  | PList _ => "[...]"
  end.

(** ** parser.py *)

Module Parser.

Import Re.

(** The pattern of the source, piece by piece (a star is written STAR
    here): an optional [(?:@(?P<tags>.STAR?) )], a colon, the group
    [(?:(?P<prefix>.STAR?) ?)], a space, [(?P<command>\w+|\d+)], a space
    and [(?P<params>.STAR)]. *)
Definition PATTERN : regex :=
  cat [ Opt (cat [Chr (Lit "@"); Named "tags" (LazyStar AnyChar); Chr (Lit " ")]);
        Chr (Lit ":");
        cat [Named "prefix" (LazyStar AnyChar); Opt (Chr (Lit " "))];
        Chr (Lit " ");
        Named "command" (Alt (Plus WordChar) (Plus DigitChar));
        Chr (Lit " ");
        Named "params" (Star AnyChar) ].

Definition SYSTEM_ID : string := "tmi.twitch.tv".

Definition LOOKUP : gmap N string :=
  list_to_map
    [ (1, "welcome"); (2, "your_host"); (3, "created"); (4, "my_info");
      (375, "motd_start"); (372, "motd"); (376, "motd_end");
      (353, "name_reply"); (366, "name_end");
      (421, "unknown_command") ]%N.

(** *** enums.py and dataclasses.py, as far as the parser builds them *)

Inductive SysMessageTypes :=
| GENERIC | PING | JOIN | PART | CAP | MODE | NAMES | CLEAR_CHAT | CLEAR_MSG
| HOST_TARGET | NOTICE | RECONNECT | ROOM_STATE | USER_NOTICE | USER_STATE
| GLOBAL_USER_STATE.

Inductive IrcResponses :=
| WELCOME | YOUR_HOST | CREATED | MY_INFO | MOTD_START | MOTD | MOTD_END
| NAME_REPLY | NAME_END | UNKNOWN_COMMAND.

Record SystemMessage := {
  type : SysMessageTypes;
  user : pyobj;
  message : pyobj;
  code : IrcResponses
}.

(** The typed variants.  The subclasses of [SystemMessage] add fields to
    the four inherited ones. *)
Inductive Message :=
| System (m : SystemMessage)
| ModeMessage (m : SystemMessage) (channel : pyobj) (op : bool)
| NamesMessage (m : SystemMessage) (channel : pyobj) (names : list string)
| JoinMessage (m : SystemMessage) (channel : pyobj)
| PartMessage (m : SystemMessage) (channel : pyobj)
| HostMessage (m : SystemMessage) (channel : pyobj)
| ClearChatMessage (m : SystemMessage) (channel : pyobj)
| ClearMsgMessage (m : SystemMessage) (channel : pyobj) (message_id : pyobj).

(** [SystemMessage.__init__], the one [@dataclass] generates: four
    parameters, none with a default.  An argument is [None] here when the
    call leaves it out, and the call then raises [TypeError]. *)
Definition SystemMessage_init (type : option SysMessageTypes) (user message : option pyobj)
    (code : option IrcResponses) : result SystemMessage :=
  match type, user, message, code with
  | Some t, Some u, Some m, Some c =>
      Return {| type := t; user := u; message := m; code := c |}
  | _, _, _, _ => Raise TypeError
  end.

(** The subclasses define [__init__] themselves ([@dataclass] keeps it) and
    call the inherited one with keyword arguments. *)
Definition ModeMessage_init (channel user : pyobj) (op : bool) : result Message :=
  m <- SystemMessage_init (Some MODE) (Some user) None None ;;
  Return (ModeMessage m channel op).

Definition NamesMessage_init (channel : pyobj) (names : list string) : result Message :=
  m <- SystemMessage_init (Some NAMES) None None (Some NAME_REPLY) ;;
  Return (NamesMessage m channel names).

Definition JoinMessage_init (channel user : pyobj) : result Message :=
  m <- SystemMessage_init (Some JOIN) (Some user) None None ;;
  Return (JoinMessage m channel).

Definition PartMessage_init (channel user : pyobj) : result Message :=
  m <- SystemMessage_init (Some PART) (Some user) None None ;;
  Return (PartMessage m channel).

Definition HostMessage_init (channel user : pyobj) : result Message :=
  m <- SystemMessage_init (Some HOST_TARGET) (Some user) None None ;;
  Return (HostMessage m channel).

(** [ClearChatMessage] called on an unpacked list: one or two positional
    arguments fit the signature [(channel, user=None)]. *)
Definition ClearChatMessage_init (args : list string) : result Message :=
  match args with
  | [channel] | [channel; _] =>
      m <- SystemMessage_init (Some CLEAR_CHAT) None None None ;;
      Return (ClearChatMessage m (PStr channel))
  | _ => Raise TypeError
  end.

Definition ClearMsgMessage_init (channel message_id : pyobj) : result Message :=
  m <- SystemMessage_init (Some CLEAR_MSG) None None None ;;
  Return (ClearMsgMessage m channel message_id).

(** *** Access to the values of a [dict] *)

(** [d[key]] *)
Definition item (d : gmap string pyobj) (key : string) : result pyobj :=
  match d !! key with
  | Some o => Return o
  | None => Raise KeyError
  end.

(** The receiver of a [str] method such as [split] or [isdigit]: the other
    objects have no such attribute. *)
Definition as_str (o : pyobj) : result string :=
  match o with
  | PStr s => Return s
  | _ => Raise AttributeError
  end.

(** [o[n:]] *)
Definition slice (n : nat) (o : pyobj) : result pyobj :=
  match o with
  | PStr s => Return (PStr (Py.slice_from n s))
  | PList l => Return (PList (drop n l))
  | _ => Raise TypeError
  end.

(** [data[key].split(sep, maxsplit)] *)
Definition split_item (data : gmap string pyobj) (key : string) (sep : ascii)
    (maxsplit : option nat) : result (list string) :=
  o <- item data key ;;
  s <- as_str o ;;
  Return (Py.split sep maxsplit s).

Definition last (l : list string) : string :=
  match l with
  | [] => EmptyString
  | h :: t => Py.last_item h t
  end.

(** *** The handlers *)

Definition handler := gmap string pyobj -> result (option Message).

Definition generic (user : pyobj) (message : string) (code : IrcResponses)
  : result (option Message) :=
  m <- SystemMessage_init (Some GENERIC) (Some user) (Some (PStr message)) (Some code) ;;
  Return (Some (System m)).

Definition parse_welcome : handler := fun data =>
  parts <- split_item data "params" " " (Some 1%nat) ;;
  let message := last parts in
  prefix <- item data "prefix" ;;
  generic prefix (Py.slice_from 1 message) WELCOME.

Definition parse_your_host : handler := fun data =>
  parts <- split_item data "params" " " (Some 1%nat) ;;
  generic (PStr SYSTEM_ID) (Py.slice_from 1 (last parts)) YOUR_HOST.

Definition parse_created : handler := fun data =>
  parts <- split_item data "params" " " (Some 1%nat) ;;
  generic (PStr SYSTEM_ID) (Py.slice_from 1 (last parts)) CREATED.

Definition parse_my_info : handler := fun data =>
  parts <- split_item data "params" " " (Some 1%nat) ;;
  match parts with
  | [user; _] => generic (PStr user) EmptyString MY_INFO
  | _ => Raise (ValueError "unpack")
  end.

Definition parse_motd_start : handler := fun data =>
  parts <- split_item data "params" " " (Some 1%nat) ;;
  generic (PStr SYSTEM_ID) (Py.slice_from 1 (last parts)) MOTD_START.

Definition parse_motd : handler := fun data =>
  parts <- split_item data "params" " " None ;;
  generic (PStr SYSTEM_ID) (Py.slice_from 1 (last parts)) MOTD.

Definition parse_motd_end : handler := fun data =>
  parts <- split_item data "params" " " (Some 1%nat) ;;
  generic (PStr SYSTEM_ID) (Py.slice_from 1 (last parts)) MOTD_END.

Definition parse_name_reply : handler := fun data =>
  parts <- split_item data "params" " " (Some 3%nat) ;;
  match parts with
  | [_; _; channel; names] =>
      m <- NamesMessage_init (PStr channel) (Py.split " " None names) ;;
      Return (Some m)
  | _ => Raise (ValueError "unpack")
  end.

Definition parse_name_end : handler := fun data =>
  parts <- split_item data "params" " " (Some 2%nat) ;;
  match parts with
  | [_; channel; message] =>
      generic (PStr (Py.slice_from 1 channel)) (Py.slice_from 1 message) NAME_END
  | _ => Raise (ValueError "unpack")
  end.

Definition parse_unknown_command : handler := fun data =>
  parts <- split_item data "params" " " (Some 2%nat) ;;
  generic (PStr SYSTEM_ID) (Py.slice_from 1 (last parts)) UNKNOWN_COMMAND.

Definition parse_mode : handler := fun data =>
  parts <- split_item data "params" " " None ;;
  match parts with
  | [channel; status; user] =>
      match status with
      | String a _ =>
          m <- ModeMessage_init (PStr (Py.slice_from 1 channel)) (PStr user)
                 (Ascii.eqb a "+") ;;
          Return (Some m)
      | EmptyString => Raise IndexError
      end
  | _ => Raise (ValueError "unpack")
  end.

Definition parse_join : handler := fun data =>
  parts <- split_item data "prefix" "!" (Some 1%nat) ;;
  match parts with
  | [user; _] =>
      params <- item data "params" ;;
      channel <- slice 1 params ;;
      m <- JoinMessage_init channel (PStr user) ;;
      Return (Some m)
  | _ => Raise (ValueError "unpack")
  end.

Definition parse_part : handler := fun data =>
  parts <- split_item data "prefix" "!" (Some 1%nat) ;;
  match parts with
  | [user; _] =>
      params <- item data "params" ;;
      channel <- slice 1 params ;;
      m <- PartMessage_init channel (PStr user) ;;
      Return (Some m)
  | _ => Raise (ValueError "unpack")
  end.

Definition parse_hosttarget : handler := fun data =>
  parts <- split_item data "params" " " None ;;
  match parts with
  | channel :: target :: _ =>
      m <- HostMessage_init (PStr (Py.slice_from 1 channel)) (PStr (Py.slice_from 1 target)) ;;
      Return (Some m)
  | _ => Raise (ValueError "unpack")
  end.

Definition parse_cap : handler := fun data =>
  prefix <- item data "prefix" ;;
  params <- item data "params" ;;
  message <- slice 2 params ;;
  m <- SystemMessage_init (Some CAP) (Some prefix) (Some message) None ;;
  Return (Some (System m)).

Definition parse_clearchat : handler := fun data =>
  parts <- split_item data "params" " " None ;;
  m <- ClearChatMessage_init parts ;;
  Return (Some m).

Definition parse_clearmsg : handler := fun data =>
  parts <- split_item data "params" " " None ;;
  tags <- item data "tags" ;;
  message_id <- match tags with
                | PDict d => Return (from_option PStr PNone (d !! "target-msg-id"))
                | _ => Raise AttributeError
                end ;;
  m <- ClearMsgMessage_init (PStr (default EmptyString (head parts))) message_id ;;
  Return (Some m).

(** The body is a docstring alone: the call returns [None]. *)
Definition parse_globaluserstate : handler := fun _ => Return None.

(** *** The members of the class, as [inspect.getmembers(Parser)] lists them *)

Inductive member :=
| ClassAttribute          (* [LOOKUP], [PATTERN], [SYSTEM_ID] *)
| Function_               (* a plain [def]: [__init__] *)
| BoundMethod.            (* a [classmethod] read off the class *)

(** [inspect.isfunction]: true of a plain function object only.  Reading a
    [classmethod] off its class yields a method bound to the class. *)
Definition isfunction (m : member) : bool :=
  match m with
  | Function_ => true
  | _ => false
  end.

(** Sorted by name.  The names [object] contributes all start with two
    underscores and are left out. *)
Definition getmembers : list (string * member) :=
  [ ("LOOKUP", ClassAttribute); ("PATTERN", ClassAttribute);
    ("SYSTEM_ID", ClassAttribute); ("__init__", Function_);
    ("_extract_tags", BoundMethod); ("parse", BoundMethod);
    ("parse_cap", BoundMethod); ("parse_clearchat", BoundMethod);
    ("parse_clearmsg", BoundMethod); ("parse_created", BoundMethod);
    ("parse_globaluserstate", BoundMethod); ("parse_hosttarget", BoundMethod);
    ("parse_join", BoundMethod); ("parse_mode", BoundMethod);
    ("parse_motd", BoundMethod); ("parse_motd_end", BoundMethod);
    ("parse_motd_start", BoundMethod); ("parse_my_info", BoundMethod);
    ("parse_name_end", BoundMethod); ("parse_name_reply", BoundMethod);
    ("parse_part", BoundMethod); ("parse_unknown_command", BoundMethod);
    ("parse_welcome", BoundMethod); ("parse_your_host", BoundMethod) ].

Definition handlers : list (string * handler) :=
  [ ("parse_cap", parse_cap); ("parse_clearchat", parse_clearchat);
    ("parse_clearmsg", parse_clearmsg); ("parse_created", parse_created);
    ("parse_globaluserstate", parse_globaluserstate);
    ("parse_hosttarget", parse_hosttarget); ("parse_join", parse_join);
    ("parse_mode", parse_mode); ("parse_motd", parse_motd);
    ("parse_motd_end", parse_motd_end); ("parse_motd_start", parse_motd_start);
    ("parse_my_info", parse_my_info); ("parse_name_end", parse_name_end);
    ("parse_name_reply", parse_name_reply); ("parse_part", parse_part);
    ("parse_unknown_command", parse_unknown_command);
    ("parse_welcome", parse_welcome); ("parse_your_host", parse_your_host) ].

Fixpoint handler_of (name : string) (hs : list (string * handler)) : option handler :=
  match hs with
  | [] => None
  | (n, h) :: hs' => if String.eqb n name then Some h else handler_of name hs'
  end.

(** [instance(groups)] for the member called [name]. *)
Definition call (name : string) (groups : gmap string pyobj) : result (option Message) :=
  match handler_of name handlers with
  | Some h => h groups
  | None => Raise TypeError
  end.

(** *** [Parser._extract_tags] *)

Fixpoint extract_segments (segments : list string) (tags : gmap string string)
  : result (gmap string string) :=
  match segments with
  | [] => Return tags
  | segment :: rest =>
      match Py.split "=" None segment with
      | key :: value :: _ => extract_segments rest (<[key := value]> tags)
      | [key] => extract_segments rest (<[key := EmptyString]> tags)
      | [] => Raise IndexError
      end
  end.

Definition _extract_tags (c : gmap string pyobj) (tags : gmap string string)
  : result (gmap string string) :=
  segments <- split_item c "tags" ";" None ;;
  extract_segments segments tags.

(** *** [Parser.parse] *)

(** The loop over the members.  [groups] is threaded through because the
    body overwrites [groups['command']].  The second test of the body is
    the argument [is_function]. *)
Fixpoint dispatch_with (is_function : member -> bool) (ms : list (string * member))
    (groups : gmap string pyobj) : result (option Message) :=
  match ms with
  | [] =>
      command <- item groups "command" ;;
      Raise (ValueError ("No parser found for command " +:+ format command))
  | (name, instance) :: ms' =>
      if negb (Py.startswith name "parse_") then dispatch_with is_function ms' groups
      else if negb (is_function instance) then dispatch_with is_function ms' groups
      else
        command <- item groups "command" ;;
        token <- as_str command ;;
        groups' <- (if Py.isdigit token
                    then n <- Py.int token ;; Return (<["command" := PInt n]> groups)
                    else Return groups) ;;
        command' <- item groups' "command" ;;
        if negb (String.eqb name ("parse_" +:+ format command'))
        then dispatch_with is_function ms' groups'
        else call name groups'
  end.

Definition dispatch : list (string * member) -> gmap string pyobj -> result (option Message) :=
  dispatch_with isfunction.

Definition parse (message : string) : result (option Message) :=
  match match_ PATTERN message with
  | None => Raise (ValueError EmptyString)
  | Some m =>
      let groups := groupdict PATTERN m in
      let c := groups in
      tags <- (if bool_decide (is_Some (c !! "tags"))
               then _extract_tags c ∅
               else Return ∅) ;;
      let c := <["tags" := PDict tags]> c in
      dispatch getmembers groups
  end.

End Parser.

(** ** gateway.py *)

Module Gateway.

(** The reset signals of the class. *)
Inductive signal :=
| on_priv_limit_reset
| on_join_limit_reset
| on_whisper_second_reset
| on_whisper_minute_reset
| on_whisper_account_reset.

Definition signal_eqb (a b : signal) : bool :=
  match a, b with
  | on_priv_limit_reset, on_priv_limit_reset
  | on_join_limit_reset, on_join_limit_reset
  | on_whisper_second_reset, on_whisper_second_reset
  | on_whisper_minute_reset, on_whisper_minute_reset
  | on_whisper_account_reset, on_whisper_account_reset => true
  | _, _ => false
  end.

(** The partial applications [__init__] stores for the timer. *)
Inductive callback :=
| _reset_join_limit_auto
| _reset_priv_limit_auto
| _reset_w_second_auto
| _reset_w_minute_auto
| _reset_w_daily_auto.

(** The transport, seen through the four calls the gateway makes:
    [isValid], [open], [sendTextMessage] and [close]. *)
Record socket := {
  isValid : bool;
  opened : list string;        (* the URLs given to [open] *)
  written : list string;       (* the lines given to [sendTextMessage] *)
  closed : nat                 (* how often [close] was called *)
}.

(** [_whispered_accounts]: a list of logins after [__init__], and an
    [int] after the assignments in the two whisper resets. *)
Inductive accounts :=
| AccountList (l : list string)
| AccountInt (n : Z).

Record gateway := {
  channels : list string;
  whisper_reset : option Z;
  nick : string;
  token : string;
  host : string;
  port : N;
  _join_started : bool;
  _priv_started : bool;
  _should_reconnect : bool;
  _priv_sent : nat;
  _join_sent : nat;
  _whispers_this_second : nat;
  _whispers_this_minute : nat;
  _whispered_accounts : accounts;
  _reconnect_attempts : nat;
  _socket : socket;
  _timer : list (nat * callback);
  on_message : list string
}.

(** Assignment to one attribute. *)
Definition set_channels (v : list string) (g : gateway) : gateway :=
  {| channels := v; whisper_reset := whisper_reset g; nick := nick g;
     token := token g; host := host g; port := port g;
     _join_started := _join_started g; _priv_started := _priv_started g;
     _should_reconnect := _should_reconnect g; _priv_sent := _priv_sent g;
     _join_sent := _join_sent g;
     _whispers_this_second := _whispers_this_second g;
     _whispers_this_minute := _whispers_this_minute g;
     _whispered_accounts := _whispered_accounts g;
     _reconnect_attempts := _reconnect_attempts g; _socket := _socket g;
     _timer := _timer g; on_message := on_message g |}.

Definition set_whisper_reset (v : option Z) (g : gateway) : gateway :=
  {| channels := channels g; whisper_reset := v; nick := nick g;
     token := token g; host := host g; port := port g;
     _join_started := _join_started g; _priv_started := _priv_started g;
     _should_reconnect := _should_reconnect g; _priv_sent := _priv_sent g;
     _join_sent := _join_sent g;
     _whispers_this_second := _whispers_this_second g;
     _whispers_this_minute := _whispers_this_minute g;
     _whispered_accounts := _whispered_accounts g;
     _reconnect_attempts := _reconnect_attempts g; _socket := _socket g;
     _timer := _timer g; on_message := on_message g |}.

Definition set_host (v : string) (g : gateway) : gateway :=
  {| channels := channels g; whisper_reset := whisper_reset g;
     nick := nick g; token := token g; host := v; port := port g;
     _join_started := _join_started g; _priv_started := _priv_started g;
     _should_reconnect := _should_reconnect g; _priv_sent := _priv_sent g;
     _join_sent := _join_sent g;
     _whispers_this_second := _whispers_this_second g;
     _whispers_this_minute := _whispers_this_minute g;
     _whispered_accounts := _whispered_accounts g;
     _reconnect_attempts := _reconnect_attempts g; _socket := _socket g;
     _timer := _timer g; on_message := on_message g |}.

Definition set_port (v : N) (g : gateway) : gateway :=
  {| channels := channels g; whisper_reset := whisper_reset g;
     nick := nick g; token := token g; host := host g; port := v;
     _join_started := _join_started g; _priv_started := _priv_started g;
     _should_reconnect := _should_reconnect g; _priv_sent := _priv_sent g;
     _join_sent := _join_sent g;
     _whispers_this_second := _whispers_this_second g;
     _whispers_this_minute := _whispers_this_minute g;
     _whispered_accounts := _whispered_accounts g;
     _reconnect_attempts := _reconnect_attempts g; _socket := _socket g;
     _timer := _timer g; on_message := on_message g |}.

Definition set_join_started (v : bool) (g : gateway) : gateway :=
  {| channels := channels g; whisper_reset := whisper_reset g;
     nick := nick g; token := token g; host := host g; port := port g;
     _join_started := v; _priv_started := _priv_started g;
     _should_reconnect := _should_reconnect g; _priv_sent := _priv_sent g;
     _join_sent := _join_sent g;
     _whispers_this_second := _whispers_this_second g;
     _whispers_this_minute := _whispers_this_minute g;
     _whispered_accounts := _whispered_accounts g;
     _reconnect_attempts := _reconnect_attempts g; _socket := _socket g;
     _timer := _timer g; on_message := on_message g |}.

Definition set_priv_started (v : bool) (g : gateway) : gateway :=
  {| channels := channels g; whisper_reset := whisper_reset g;
     nick := nick g; token := token g; host := host g; port := port g;
     _join_started := _join_started g; _priv_started := v;
     _should_reconnect := _should_reconnect g; _priv_sent := _priv_sent g;
     _join_sent := _join_sent g;
     _whispers_this_second := _whispers_this_second g;
     _whispers_this_minute := _whispers_this_minute g;
     _whispered_accounts := _whispered_accounts g;
     _reconnect_attempts := _reconnect_attempts g; _socket := _socket g;
     _timer := _timer g; on_message := on_message g |}.

Definition set_should_reconnect (v : bool) (g : gateway) : gateway :=
  {| channels := channels g; whisper_reset := whisper_reset g;
     nick := nick g; token := token g; host := host g; port := port g;
     _join_started := _join_started g; _priv_started := _priv_started g;
     _should_reconnect := v; _priv_sent := _priv_sent g;
     _join_sent := _join_sent g;
     _whispers_this_second := _whispers_this_second g;
     _whispers_this_minute := _whispers_this_minute g;
     _whispered_accounts := _whispered_accounts g;
     _reconnect_attempts := _reconnect_attempts g; _socket := _socket g;
     _timer := _timer g; on_message := on_message g |}.

Definition set_priv_sent (v : nat) (g : gateway) : gateway :=
  {| channels := channels g; whisper_reset := whisper_reset g;
     nick := nick g; token := token g; host := host g; port := port g;
     _join_started := _join_started g; _priv_started := _priv_started g;
     _should_reconnect := _should_reconnect g; _priv_sent := v;
     _join_sent := _join_sent g;
     _whispers_this_second := _whispers_this_second g;
     _whispers_this_minute := _whispers_this_minute g;
     _whispered_accounts := _whispered_accounts g;
     _reconnect_attempts := _reconnect_attempts g; _socket := _socket g;
     _timer := _timer g; on_message := on_message g |}.

Definition set_join_sent (v : nat) (g : gateway) : gateway :=
  {| channels := channels g; whisper_reset := whisper_reset g;
     nick := nick g; token := token g; host := host g; port := port g;
     _join_started := _join_started g; _priv_started := _priv_started g;
     _should_reconnect := _should_reconnect g; _priv_sent := _priv_sent g;
     _join_sent := v; _whispers_this_second := _whispers_this_second g;
     _whispers_this_minute := _whispers_this_minute g;
     _whispered_accounts := _whispered_accounts g;
     _reconnect_attempts := _reconnect_attempts g; _socket := _socket g;
     _timer := _timer g; on_message := on_message g |}.

Definition set_whispers_this_second (v : nat) (g : gateway) : gateway :=
  {| channels := channels g; whisper_reset := whisper_reset g;
     nick := nick g; token := token g; host := host g; port := port g;
     _join_started := _join_started g; _priv_started := _priv_started g;
     _should_reconnect := _should_reconnect g; _priv_sent := _priv_sent g;
     _join_sent := _join_sent g; _whispers_this_second := v;
     _whispers_this_minute := _whispers_this_minute g;
     _whispered_accounts := _whispered_accounts g;
     _reconnect_attempts := _reconnect_attempts g; _socket := _socket g;
     _timer := _timer g; on_message := on_message g |}.

Definition set_whispers_this_minute (v : nat) (g : gateway) : gateway :=
  {| channels := channels g; whisper_reset := whisper_reset g;
     nick := nick g; token := token g; host := host g; port := port g;
     _join_started := _join_started g; _priv_started := _priv_started g;
     _should_reconnect := _should_reconnect g; _priv_sent := _priv_sent g;
     _join_sent := _join_sent g;
     _whispers_this_second := _whispers_this_second g;
     _whispers_this_minute := v;
     _whispered_accounts := _whispered_accounts g;
     _reconnect_attempts := _reconnect_attempts g; _socket := _socket g;
     _timer := _timer g; on_message := on_message g |}.

Definition set_whispered_accounts (v : accounts) (g : gateway) : gateway :=
  {| channels := channels g; whisper_reset := whisper_reset g;
     nick := nick g; token := token g; host := host g; port := port g;
     _join_started := _join_started g; _priv_started := _priv_started g;
     _should_reconnect := _should_reconnect g; _priv_sent := _priv_sent g;
     _join_sent := _join_sent g;
     _whispers_this_second := _whispers_this_second g;
     _whispers_this_minute := _whispers_this_minute g;
     _whispered_accounts := v; _reconnect_attempts := _reconnect_attempts g;
     _socket := _socket g; _timer := _timer g; on_message := on_message g |}.

Definition set_reconnect_attempts (v : nat) (g : gateway) : gateway :=
  {| channels := channels g; whisper_reset := whisper_reset g;
     nick := nick g; token := token g; host := host g; port := port g;
     _join_started := _join_started g; _priv_started := _priv_started g;
     _should_reconnect := _should_reconnect g; _priv_sent := _priv_sent g;
     _join_sent := _join_sent g;
     _whispers_this_second := _whispers_this_second g;
     _whispers_this_minute := _whispers_this_minute g;
     _whispered_accounts := _whispered_accounts g; _reconnect_attempts := v;
     _socket := _socket g; _timer := _timer g; on_message := on_message g |}.

Definition set_socket (v : socket) (g : gateway) : gateway :=
  {| channels := channels g; whisper_reset := whisper_reset g;
     nick := nick g; token := token g; host := host g; port := port g;
     _join_started := _join_started g; _priv_started := _priv_started g;
     _should_reconnect := _should_reconnect g; _priv_sent := _priv_sent g;
     _join_sent := _join_sent g;
     _whispers_this_second := _whispers_this_second g;
     _whispers_this_minute := _whispers_this_minute g;
     _whispered_accounts := _whispered_accounts g;
     _reconnect_attempts := _reconnect_attempts g; _socket := v;
     _timer := _timer g; on_message := on_message g |}.

Definition set_timer (v : list (nat * callback)) (g : gateway) : gateway :=
  {| channels := channels g; whisper_reset := whisper_reset g;
     nick := nick g; token := token g; host := host g; port := port g;
     _join_started := _join_started g; _priv_started := _priv_started g;
     _should_reconnect := _should_reconnect g; _priv_sent := _priv_sent g;
     _join_sent := _join_sent g;
     _whispers_this_second := _whispers_this_second g;
     _whispers_this_minute := _whispers_this_minute g;
     _whispered_accounts := _whispered_accounts g;
     _reconnect_attempts := _reconnect_attempts g; _socket := _socket g;
     _timer := v; on_message := on_message g |}.

Definition set_on_message (v : list string) (g : gateway) : gateway :=
  {| channels := channels g; whisper_reset := whisper_reset g;
     nick := nick g; token := token g; host := host g; port := port g;
     _join_started := _join_started g; _priv_started := _priv_started g;
     _should_reconnect := _should_reconnect g; _priv_sent := _priv_sent g;
     _join_sent := _join_sent g;
     _whispers_this_second := _whispers_this_second g;
     _whispers_this_minute := _whispers_this_minute g;
     _whispered_accounts := _whispered_accounts g;
     _reconnect_attempts := _reconnect_attempts g; _socket := _socket g;
     _timer := _timer g; on_message := v |}.

(** The limits [__init__] sets and nothing changes afterwards. *)
Definition _priv_limit : nat := 20.
Definition _priv_period : nat := 30.
Definition _join_limit : nat := 50.
Definition _join_period : nat := 15.
Definition _whisper_second_limit : nat := 3.
Definition _whisper_minute_limit : nat := 200.
Definition _whisper_accounts_limit : nat := 40.

(** [Gateway.__init__], with the keywords that were given. *)
Definition init (kw_whisper_reset : option Z) (kw_nick kw_token kw_host : option string)
    (kw_port : option N) : gateway :=
  let token := default "foobar" kw_token in
  {| channels := [];
     whisper_reset := kw_whisper_reset;
     nick := default "justinfan2389" kw_nick;
     token := if negb (String.eqb token "foobar") && negb (Py.startswith token "oauth")
              then "oauth:" +:+ token else token;
     host := default "irc-ws.chat.twitch.tv" kw_host;
     port := default 443%N kw_port;
     _join_started := false; _priv_started := false; _should_reconnect := true;
     _priv_sent := 0; _join_sent := 0;
     _whispers_this_second := 0; _whispers_this_minute := 0;
     _whispered_accounts := AccountList [];
     _reconnect_attempts := 0;
     _socket := {| isValid := false; opened := []; written := []; closed := 0 |};
     _timer := [];
     on_message := [] |}.

(** *** Calls that may suspend

    [signals.wait_for_signal] comes from the QtUtilities package: the
    caller stays inside it until the signal is emitted, while the event
    loop goes on delivering timers and other calls.  A call of a method is
    therefore finished, raised, or suspended on a signal with the rest of
    the method as a continuation that takes the gateway as it is when the
    signal comes. *)
Inductive proc (A : Type) :=
| Done (a : A) (g : gateway)
| Raised (e : exn) (g : gateway)
| Blocked (sg : signal) (k : gateway -> proc A).
Arguments Done {A} a g.
Arguments Raised {A} e g.
Arguments Blocked {A} sg k.

Definition M (A : Type) : Type := gateway -> proc A.

Fixpoint pbind {A B} (p : proc A) (f : A -> M B) : proc B :=
  match p with
  | Done a g => f a g
  | Raised e g => Raised e g
  | Blocked sg k => Blocked sg (fun g => pbind (k g) f)
  end.

Definition ret {A} (a : A) : M A := fun g => Done a g.
Definition raise {A} (e : exn) : M A := fun g => Raised e g.
Definition bind {A B} (m : M A) (f : A -> M B) : M B := fun g => pbind (m g) f.
Definition gets {A} (f : gateway -> A) : M A := fun g => Done (f g) g.
Definition modify (f : gateway -> gateway) : M unit := fun g => Done tt (f g).

(** [try: m  except e: h] for the one exception class [handles] accepts. *)
Fixpoint pcatch {A} (p : proc A) (handles : exn -> bool) (h : M A) : proc A :=
  match p with
  | Done a g => Done a g
  | Raised e g => if handles e then h g else Raised e g
  | Blocked sg k => Blocked sg (fun g => pcatch (k g) handles h)
  end.

Definition catch {A} (m : M A) (handles : exn -> bool) (h : M A) : M A :=
  fun g => pcatch (m g) handles h.

Declare Scope gw_scope.
Delimit Scope gw_scope with gw.
Notation "x <~ m ; k" := (bind m (fun x => k))
  (at level 100, m at next level, right associativity) : gw_scope.
Notation "m1 >> m2" := (bind m1 (fun _ => m2))
  (at level 100, right associativity) : gw_scope.
Local Open Scope gw_scope.

Definition when (b : bool) (m : M unit) : M unit := if b then m else ret tt.

Fixpoint for_each {A} (l : list A) (body : A -> M unit) : M unit :=
  match l with
  | [] => ret tt
  | x :: l' => body x >> for_each l' body
  end.

Definition wait_for_signal (sg : signal) : M unit :=
  fun g => Blocked sg (fun g' => Done tt g').

(** [self._timer.singleShot(msec, callback)] *)
Definition singleShot (msec : nat) (cb : callback) : M unit :=
  modify (fun g => set_timer (_timer g ++ [(msec, cb)]) g).

(** [self._socket.sendTextMessage(content)] *)
Definition sendTextMessage (content : string) : M unit :=
  modify (fun g =>
    let s := _socket g in
    set_socket {| isValid := isValid s; opened := opened s;
                  written := written s ++ [content]; closed := closed s |} g).

(** [self._socket.open(QUrl(url))] *)
Definition socket_open (url : string) : M unit :=
  modify (fun g =>
    let s := _socket g in
    set_socket {| isValid := isValid s; opened := opened s ++ [url];
                  written := written s; closed := closed s |} g).

(** [self._socket.close()]: the socket is no longer valid afterwards. *)
Definition socket_close : M unit :=
  modify (fun g =>
    let s := _socket g in
    set_socket {| isValid := false; opened := opened s;
                  written := written s; closed := S (closed s) |} g).

(** *** The two counting buckets *)

Definition wait_and_increment_priv : M unit :=
  sent <~ gets _priv_sent ;
  when (_priv_limit <=? sent) (wait_for_signal on_priv_limit_reset) >>
  modify (fun g => set_priv_sent (_priv_sent g + 1) g).

Definition wait_and_increment_join : M unit :=
  sent <~ gets _join_sent ;
  when (_join_limit <=? sent) (wait_for_signal on_join_limit_reset) >>
  modify (fun g => set_join_sent (_join_sent g + 1) g).

(** *** Message methods *)

(** The line as it goes to the socket. *)
Definition terminated (content : string) : string :=
  if negb (Py.endswith content Py.CRLF) then content +:+ Py.CRLF else content.

Definition send_raw_message (content : string) (ignore_limit : option bool) : M unit :=
  let ignore_limit := default false ignore_limit in
  when (negb ignore_limit)
       (if Py.startswith (Py.lower content) "CAP REQ"
        then wait_and_increment_priv
        else wait_and_increment_join) >>
  sendTextMessage (terminated content).

Definition send_priv_message (channel content : string) : M unit :=
  started <~ gets _priv_started ;
  when (negb started)
       (singleShot (1000 * _priv_limit) _reset_priv_limit_auto >>
        modify (set_priv_started true)) >>
  wait_and_increment_priv >>
  send_raw_message ("PRIVMSG #" +:+ channel +:+ " :" +:+ content) (Some true).

(** The state after a send that found room in the join bucket. *)
Definition after_join_send (line : string) (g : gateway) : gateway :=
  let g1 := set_join_sent (_join_sent g + 1) g in
  let s := _socket g1 in
  set_socket {| isValid := isValid s; opened := opened s;
                written := written s ++ [line]; closed := closed s |} g1.

(** *** Whispers *)

(** [user not in self._whispered_accounts] *)
Definition not_in_accounts (user : string) : M bool :=
  a <~ gets _whispered_accounts ;
  match a with
  | AccountList l => ret (negb (bool_decide (user ∈ l)))
  | AccountInt _ => raise TypeError
  end.

(** [len(self._whispered_accounts)] *)
Definition len_accounts : M nat :=
  a <~ gets _whispered_accounts ;
  match a with
  | AccountList l => ret (length l)
  | AccountInt _ => raise TypeError
  end.

Definition can_whisper (user : string) : M bool :=
  fresh <~ not_in_accounts user ;
  full <~ (if fresh then n <~ len_accounts ; ret (_whisper_accounts_limit <=? n)
           else ret false) ;
  minute <~ gets _whispers_this_minute ;
  second <~ gets _whispers_this_second ;
  if fresh && full then ret false
  else if _whisper_minute_limit <=? minute then ret false
  else if _whisper_second_limit <=? second then ret false
  else ret true.

Definition wait_for_whisper (include_accounts : option bool) : M unit :=
  minute <~ gets _whispers_this_minute ;
  second <~ gets _whispers_this_second ;
  if _whisper_minute_limit <=? minute then wait_for_signal on_whisper_minute_reset
  else if _whisper_second_limit <=? second then wait_for_signal on_whisper_second_reset
  else if default false include_accounts
       then n <~ len_accounts ;
            when (_whisper_accounts_limit <=? n) (wait_for_signal on_whisper_account_reset)
       else ret tt.

Definition increment_whisper (user : string) : M unit :=
  fresh <~ not_in_accounts user ;
  when fresh
       (a <~ gets _whispered_accounts ;
        match a with
        | AccountList l => modify (set_whispered_accounts (AccountList (l ++ [user])))
        | AccountInt _ => raise AttributeError
        end) >>
  modify (fun g => set_whispers_this_second (_whispers_this_second g + 1) g) >>
  modify (fun g => set_whispers_this_minute (_whispers_this_minute g + 1) g).

Definition send_whisper_message (user content : string) : M unit :=
  ok <~ can_whisper user ;
  when (negb ok) (wait_for_whisper None) >>
  send_raw_message ("PRIVMSG #jtv :.w " +:+ user +:+ " " +:+ content) None >>
  increment_whisper user.

(** *** Channels *)

Definition join (channel : string) : M unit :=
  send_raw_message ("JOIN #" +:+ channel) None >>
  l <~ gets channels ;
  when (negb (bool_decide (channel ∈ l))) (modify (set_channels (l ++ [channel]))).

(** [list.remove]: the first occurrence goes. *)
Fixpoint remove_first (x : string) (l : list string) : list string :=
  match l with
  | [] => []
  | y :: l' => if String.eqb y x then l' else y :: remove_first x l'
  end.

Definition part (channel : string) : M unit :=
  send_raw_message ("PART #" +:+ channel) None >>
  l <~ gets channels ;
  when (bool_decide (channel ∈ l)) (modify (set_channels (remove_first channel l))).

(** *** Connection *)

Definition url (g : gateway) : string :=
  host g +:+ ":" +:+ Py.str_of_int (port g).

Definition connect_ (kw_host : option string) (kw_port : option N) : M unit :=
  h <~ gets host ;
  (if String.eqb h EmptyString && bool_decide (kw_host = None)
   then raise (ConnectionAbortedError "No host specified!")
   else match kw_host with
        | Some h' => modify (set_host h')
        | None => ret tt
        end) >>
  p <~ gets port ;
  (if (p =? 0)%N && bool_decide (kw_port = None)
   then raise (ConnectionAbortedError "No port specified!")
   else match kw_port with
        | Some p' => modify (set_port p')
        | None => ret tt
        end) >>
  u <~ gets url ;
  socket_open u.

Definition disconnect_ : M unit :=
  v <~ gets (fun g => isValid (_socket g)) ;
  if negb v then raise ConnectionError else socket_close.

Definition is_ConnectionError (e : exn) : bool :=
  match e with
  | ConnectionError => true
  | _ => false
  end.

Definition reconnect : M unit :=
  modify (set_should_reconnect true) >>
  catch disconnect_ is_ConnectionError
        (modify (set_should_reconnect false) >> connect_ None None).

(** The channels are the list as it stands when the loop starts. *)
Definition process_connection : M unit :=
  v <~ gets (fun g => isValid (_socket g)) ;
  if negb v then ret tt
  else
    started <~ gets _join_started ;
    when (negb started)
         (singleShot (_join_period * 1000) _reset_join_limit_auto >>
          modify (set_join_started true)) >>
    tok <~ gets token ;
    send_raw_message ("PASS " +:+ tok) None >>
    nk <~ gets nick ;
    send_raw_message ("NICK " +:+ nk) None >>
    send_raw_message "CAP REQ :twitch.tv/membership" None >>
    send_raw_message "CAP REQ :twitch.tv/tags" None >>
    send_raw_message "CAP REQ :twitch.tv/commands" None >>
    l <~ gets channels ;
    for_each l (fun channel => send_raw_message ("JOIN #" +:+ channel) None).

Definition PING_LINE : string := "PING :tmi.twitch.tv" +:+ Py.CRLF.
Definition RECONNECT_LINE : string := ":tmi.twitch.tv RECONNECT" +:+ Py.CRLF.

Definition process_message (message : string) : M unit :=
  if String.eqb message PING_LINE
  then send_raw_message "PONG :tmi.twitch.tv" (Some true)
  else if String.eqb message RECONNECT_LINE
  then reconnect
  else modify (fun g => set_on_message (on_message g ++ [message]) g).

(** *** [process_disconnection]

    [signals.wait_for_signal_or(connected, timeout)] returns when the
    socket reports a connection or the local timer runs out.  Which of the
    two happens is the transport's doing: [connects i msec] says whether
    the [i]-th [open] of this call has made the socket valid when the wait
    of [msec] milliseconds returns. *)
Section Disconnection.
Variable connects : nat -> nat -> bool.

Definition wait_for_connected_or_timeout (i msec : nat) : M unit :=
  modify (fun g =>
    let s := _socket g in
    set_socket {| isValid := connects i msec; opened := opened s;
                  written := written s; closed := closed s |} g).

(** The [while] loop; [fuel] bounds the number of iterations. *)
Fixpoint reconnect_loop (fuel i : nat) (g : gateway) : option (proc unit) :=
  match fuel with
  | O => None
  | S fuel' =>
      if isValid (_socket g) then Some (Done tt g)
      else if 5 <? _reconnect_attempts g
      then Some (Done tt (set_reconnect_attempts 0 g))
      else
        match (socket_open (url g) >>
               wait_for_connected_or_timeout i (Nat.max (_reconnect_attempts g * 5) 1) >>
               modify (fun g => set_reconnect_attempts (_reconnect_attempts g + 1) g)) g with
        | Done _ g' => reconnect_loop fuel' (S i) g'
        | other => Some other
        end
  end.

Definition process_disconnection (fuel : nat) (g : gateway) : option (proc unit) :=
  if negb (_should_reconnect g) then Some (Done tt g)
  else
    match reconnect_loop fuel 0 g with
    | Some (Done _ g') =>
        Some (Done tt (if isValid (_socket g') then set_should_reconnect false g' else g'))
    | other => other
    end.

End Disconnection.

(** *** The event loop: suspended callers and the resets

    Any number of callers can be inside [wait_for_signal] at once; the
    most recent one is at the head.  Emitting a signal lets every caller
    suspended on it go on, the most recent first. *)
Record world := {
  gw : gateway;
  waiting : list (signal * (gateway -> proc unit));
  uncaught : list exn
}.

Definition start (g : gateway) : world :=
  {| gw := g; waiting := []; uncaught := [] |}.

(** What is left of a call once it stops running. *)
Definition settle (p : proc unit) (w : world) : world :=
  match p with
  | Done _ g => {| gw := g; waiting := waiting w; uncaught := uncaught w |}
  | Raised e g => {| gw := g; waiting := waiting w; uncaught := uncaught w ++ [e] |}
  | Blocked sg k => {| gw := gw w; waiting := (sg, k) :: waiting w; uncaught := uncaught w |}
  end.

(** A caller invokes a method of the gateway. *)
Definition invoke (m : M unit) (w : world) : world :=
  settle (m (gw w)) w.

Definition waits_for (sg : signal) (c : signal * (gateway -> proc unit)) : bool :=
  signal_eqb sg (fst c).

(** The released callers go on in turn, each from the gateway the one
    before it left. *)
Fixpoint release (cs : list (signal * (gateway -> proc unit))) (w : world) : world :=
  match cs with
  | [] => w
  | (_, k) :: cs' => release cs' (settle (k (gw w)) w)
  end.

(** [sg.emit()]: the callers that wait for [sg] are released, the others
    stay suspended. *)
Definition emit (sg : signal) (w : world) : world :=
  release (filter (fun c => waits_for sg c) (waiting w))
          {| gw := gw w;
             waiting := filter (fun c => negb (waits_for sg c)) (waiting w);
             uncaught := uncaught w |}.

Definition on_gateway (f : gateway -> gateway) (w : world) : world :=
  {| gw := f (gw w); waiting := waiting w; uncaught := uncaught w |}.

Definition arm (automated : option bool) (msec : nat) (cb : callback) (w : world) : world :=
  if default false automated
  then on_gateway (fun g => set_timer (_timer g ++ [(msec, cb)]) g) w
  else w.

Definition reset_priv_limit (automated : option bool) (w : world) : world :=
  let w := on_gateway (set_priv_sent 0) w in
  let w := emit on_priv_limit_reset w in
  arm automated (_priv_period * 1000) _reset_priv_limit_auto w.

Definition reset_join_limit (automated : option bool) (w : world) : world :=
  let w := on_gateway (set_join_sent 0) w in
  let w := emit on_join_limit_reset w in
  arm automated (_join_period * 1000) _reset_join_limit_auto w.

Definition reset_whisper_seconds (automated : option bool) (w : world) : world :=
  let w := on_gateway (set_whispers_this_second 0) w in
  let w := emit on_whisper_second_reset w in
  arm automated 1000 _reset_w_second_auto w.

(** Times are microseconds since the epoch; [timedelta.days] is the floor
    of the difference over one day. *)
Definition DAY : Z := 86400000000.

Definition days (dif : Z) : Z := dif / DAY.

(** A reset that raises leaves the assignments it made before. *)
Inductive outcome :=
| Finished (w : world)
| Failed (e : exn) (w : world).

Definition reset_whisper_minutes (now : Z) (automated : option bool) (w : world) : outcome :=
  let w := on_gateway (set_whispers_this_minute 0) w in
  let w := emit on_whisper_minute_reset w in
  let w := arm automated (1000 * 60) _reset_w_minute_auto w in
  match whisper_reset (gw w) with
  | None => Failed TypeError w
  | Some deadline =>
      let dif := (deadline - now)%Z in
      if (0 <? days dif)%Z
      then Finished (on_gateway (set_whispered_accounts (AccountInt 0)) w)
      else Finished w
  end.

Definition reset_whisper_daily (now : Z) (automated : option bool) (w : world) : outcome :=
  match whisper_reset (gw w) with
  | None => Failed TypeError w
  | Some deadline =>
      let dif := (deadline - now)%Z in
      if (days dif <=? 0)%Z then Finished w
      else
        let w := on_gateway (set_whispered_accounts (AccountInt 0)) w in
        let w := on_gateway (set_whisper_reset (Some (now + DAY)%Z)) w in
        let w := emit on_whisper_account_reset w in
        Finished (arm automated (1000 * 60 * 60) _reset_w_daily_auto w)
  end.

(** *** Scenarios *)

(** A gateway fresh from [__init__] with the defaults. *)
Definition fresh : gateway := init None None None None None.

(** The same with the daily deadline given. *)
Definition fresh_until (deadline : Z) : gateway :=
  init (Some deadline) None None None None.

(** [n] callers in a row send a chat line to a channel. *)
Definition chat_lines (n : nat) (w : world) : world :=
  Nat.iter n (invoke (send_priv_message "foo" "hi")) w.

(** [n] callers in a row send a raw line. *)
Definition raw_lines (n : nat) (w : world) : world :=
  Nat.iter n (invoke (send_raw_message "WHO" None)) w.

Definition recipient (i : nat) : string :=
  "user" +:+ Py.str_of_int (N.of_nat i).

(** One whisper a second to the recipients [0 .. n-1]: the per-second
    reset comes after each call. *)
Fixpoint whispers (n : nat) (w : world) : world :=
  match n with
  | O => w
  | S n' =>
      reset_whisper_seconds None
        (invoke (send_whisper_message (recipient n') "hi") (whispers n' w))
  end.

Definition account_count (g : gateway) : option nat :=
  match _whispered_accounts g with
  | AccountList l => Some (length l)
  | AccountInt _ => None
  end.

(** The world an outcome leaves. *)
Definition world_of (o : outcome) : world :=
  match o with
  | Finished w | Failed _ w => w
  end.

(** A transport that never comes back, and one that comes back at once. *)
Definition never_connects : nat -> nat -> bool := fun _ _ => false.
Definition connects_at_once : nat -> nat -> bool := fun _ _ => true.

End Gateway.


(** ** The words of a pattern

    What a pattern describes, apart from the order in which the matcher
    tries things: used to say what a successful match has consumed and
    what its groups hold. *)

Module Lang.

Import Re.

Fixpoint lang (r : regex) (w : string) : Prop :=
  match r with
  | Eps => w = EmptyString
  | Chr c => exists a, w = String a EmptyString /\ accepts c a = true
  | Cat r1 r2 => exists u v, w = u +:+ v /\ lang r1 u /\ lang r2 v
  | Alt r1 r2 => lang r1 w \/ lang r2 w
  | Opt r1 => w = EmptyString \/ lang r1 w
  | Star c | LazyStar c => Py.all_chars (accepts c) w = true
  | Plus c => w <> EmptyString /\ Py.all_chars (accepts c) w = true
  | Named _ r1 => lang r1 w
  end.

(** [v] is a word of a group called [name] somewhere in the pattern. *)
Fixpoint captured_by (r : regex) (name v : string) : Prop :=
  match r with
  | Cat r1 r2 | Alt r1 r2 => captured_by r1 name v \/ captured_by r2 name v
  | Opt r1 => captured_by r1 name v
  | Named n r1 => (n = name /\ lang r1 v) \/ captured_by r1 name v
  | _ => False
  end.

Definition no_line_feed (a : ascii) : bool := negb (Ascii.eqb a Py.LF).

(** The key of one segment of a tag block: the text before its first
    equals sign. *)
Definition tag_key (segment : string) : string :=
  default EmptyString (head (Py.split "=" None segment)).

Definition no_space (a : ascii) : bool := negb (Ascii.eqb a " ").

End Lang.

(** ** gateway.py: the chat-room commands and the credentials *)

Module Commands.

Import Gateway.
Local Open Scope gw_scope.

(** An [int] inside an f-string. *)
Definition format_int (n : Z) : string := NilZero.string_of_int (Z.to_int n).

(** The truth value of an optional [int] argument: [None] and 0 are false. *)
Definition truthy (o : option Z) : bool :=
  match o with
  | Some n => negb (n =? 0)%Z
  | None => false
  end.

Definition lift {A} (r : result A) : M A :=
  fun g => match r with
           | Return a => Done a g
           | Raise e => Raised e g
           end.

Definition ban (channel user : string) (reason : option string) : M unit :=
  let reason := default EmptyString reason in
  send_priv_message channel (".ban " +:+ user +:+ " " +:+ reason).

Definition unban (channel user : string) : M unit :=
  send_priv_message channel (".unban " +:+ user).

Definition timeout (channel user : string) (duration : option Z) (reason : option string)
  : M unit :=
  let duration := default 600%Z duration in
  let reason := default EmptyString reason in
  send_priv_message channel
    (".timeout " +:+ user +:+ " " +:+ format_int duration +:+ " " +:+ reason).

(** [random.randint] takes two bounds; the call with one raises. *)
Definition color (color_ : string) (channel : option string) : M unit :=
  match channel with
  | None => raise TypeError
  | Some channel => send_priv_message channel (".color " +:+ color_)
  end.

Definition me (channel text : string) : M unit :=
  send_priv_message channel (".me " +:+ text).

Definition slow (channel : string) (limit : option Z) : M unit :=
  let limit := default 120%Z limit in
  send_priv_message channel (".slow " +:+ format_int limit).

Definition slowoff (channel : string) : M unit :=
  send_priv_message channel ".slowoff".

(** [duration] in [followers]: the [int] 0 at first, a [str] once the
    months have been written. *)
Inductive duration :=
| DurationInt (n : Z)
| DurationStr (s : string).

(** [duration += f'{n}{unit}'] when [n] is true. *)
Definition add_unit (d : duration) (n : option Z) (unit : string) : result duration :=
  if truthy n
  then match d with
       | DurationStr s => Return (DurationStr (s +:+ format_int (default 0%Z n) +:+ unit))
       | DurationInt _ => Raise TypeError
       end
  else Return d.

Definition format_duration (d : duration) : string :=
  match d with
  | DurationInt n => format_int n
  | DurationStr s => s
  end.

Definition followers_duration (mins hrs days wks mnths : option Z) : result duration :=
  let d := DurationInt 0 in
  let d := if truthy mnths
           then DurationStr (format_int (default 0%Z mnths) +:+ "mo") else d in
  d <- add_unit d wks "mo" ;;
  d <- add_unit d days "d" ;;
  d <- add_unit d hrs "h" ;;
  add_unit d mins "m".

Definition followers (channel : string) (mins hrs days wks mnths : option Z) : M unit :=
  d <~ lift (followers_duration mins hrs days wks mnths) ;
  send_priv_message channel (".followers " +:+ format_duration d).

Definition followersoff (channel : string) : M unit :=
  send_priv_message channel ".followersoff".

Definition subscribers (channel : string) : M unit :=
  send_priv_message channel ".subscribers".

Definition subscribersoff (channel : string) : M unit :=
  send_priv_message channel ".subscribersoff".

Definition clear (channel : string) : M unit :=
  send_priv_message channel ".clear".

Definition r9kbeta (channel : string) : M unit :=
  send_priv_message channel ".r9kbeta".

Definition r9kbetaoff (channel : string) : M unit :=
  send_priv_message channel ".r9kbetaoff".

Definition emoteonly (channel : string) : M unit :=
  send_priv_message channel ".emoteonly".

Definition emoteonlyoff (channel : string) : M unit :=
  send_priv_message channel ".emoteonlyoff".

(** [mod] *)
Definition mod_ (channel user : string) : M unit :=
  send_priv_message channel (".mod " +:+ user).

Definition unmod (channel user : string) : M unit :=
  send_priv_message channel (".unmod " +:+ user).

Definition host (channel target : string) : M unit :=
  send_priv_message channel (".host " +:+ target).

Definition unhost (channel : string) : M unit :=
  send_priv_message channel ".unhost".

Definition vip (channel user : string) : M unit :=
  send_priv_message channel (".vip " +:+ user).

Definition unvip (channel user : string) : M unit :=
  send_priv_message channel (".unvip " +:+ user).

Definition delete (channel message_id : string) : M unit :=
  send_priv_message channel (".delete " +:+ message_id).

(** A call of one of the chat-room methods, with its arguments. *)
Inductive room_command :=
| Ban (user : string) (reason : option string)
| Unban (user : string)
| Timeout (user : string) (duration : option Z) (reason : option string)
| Color (color_ : string)
| Me (text : string)
| Slow (limit : option Z)
| Slowoff
| Followers (mins hrs days wks mnths : option Z)
| Followersoff
| Subscribers
| Subscribersoff
| Clear
| R9kbeta
| R9kbetaoff
| Emoteonly
| Emoteonlyoff
| Mod (user : string)
| Unmod (user : string)
| Host (target : string)
| Unhost
| Vip (user : string)
| Unvip (user : string)
| Delete (message_id : string).

Definition perform (c : room_command) (channel : string) : M unit :=
  match c with
  | Ban user reason => ban channel user reason
  | Unban user => unban channel user
  | Timeout user duration reason => timeout channel user duration reason
  | Color color_ => color color_ (Some channel)
  | Me text => me channel text
  | Slow limit => slow channel limit
  | Slowoff => slowoff channel
  | Followers mins hrs days wks mnths => followers channel mins hrs days wks mnths
  | Followersoff => followersoff channel
  | Subscribers => subscribers channel
  | Subscribersoff => subscribersoff channel
  | Clear => clear channel
  | R9kbeta => r9kbeta channel
  | R9kbetaoff => r9kbetaoff channel
  | Emoteonly => emoteonly channel
  | Emoteonlyoff => emoteonlyoff channel
  | Mod user => mod_ channel user
  | Unmod user => unmod channel user
  | Host target => host channel target
  | Unhost => unhost channel
  | Vip user => vip channel user
  | Unvip user => unvip channel user
  | Delete message_id => delete channel message_id
  end.

(** The state after a chat line that found room in the chat bucket. *)
Definition after_chat_line (line : string) (g : gateway) : gateway :=
  let g0 := if _priv_started g then g
            else set_priv_started true
                   (set_timer (_timer g ++ [(1000 * _priv_limit, _reset_priv_limit_auto)]) g) in
  let g1 := set_priv_sent (_priv_sent g0 + 1) g0 in
  let s := _socket g1 in
  set_socket {| isValid := isValid s; opened := opened s;
                written := written s ++ [line]; closed := closed s |} g1.

Definition is_connected : M bool := gets (fun g => isValid (_socket g)).

(** The socket dropped by the other side. *)
Definition drop_socket (g : gateway) : gateway :=
  let s := _socket g in
  set_socket {| isValid := false; opened := opened s;
                written := written s; closed := closed s |} g.

(** A transport whose [k] first opens fail and whose next one succeeds. *)
Definition connects_after (k : nat) : nat -> nat -> bool := fun i _ => (k <=? i)%nat.

End Commands.
Example split_maxsplit : Py.split " " (Some 1%nat) "a b c" = ["a"; "b c"].
Proof. reflexivity. Qed.

Example split_all : Py.split "=" None "a=b=c" = ["a"; "b"; "c"].
Proof. reflexivity. Qed.

Example split_empty : Py.split ";" None EmptyString = [EmptyString].
Proof. reflexivity. Qed.

Example split_leading : Py.split " " None "  a" = [EmptyString; EmptyString; "a"].
Proof. reflexivity. Qed.

Example endswith_crlf : Py.endswith ("PING :tmi.twitch.tv" +:+ Py.CRLF) Py.CRLF = true.
Proof. reflexivity. Qed.

Example endswith_short : Py.endswith (String Py.LF EmptyString) Py.CRLF = false.
Proof. reflexivity. Qed.

Example lower_cap : Py.lower "CAP REQ :x" = "cap req :x".
Proof. reflexivity. Qed.

(** The matcher on lines whose groups were read off Python's [re]. *)

Example match_join_line :
  groupdict Parser.PATTERN <$> Re.match_ Parser.PATTERN ":nick!user@host JOIN #foo"
  = Some (<["tags" := PNone]> (<["prefix" := PStr "nick!user@host"]>
          (<["command" := PStr "JOIN"]> (<["params" := PStr "#foo"]> ∅)))).
Proof. vm_compute. reflexivity. Qed.

Example match_tagged_line :
  groupdict Parser.PATTERN <$> Re.match_ Parser.PATTERN "@a=b;c :nick!user@host JOIN #foo"
  = Some (<["tags" := PStr "a=b;c"]> (<["prefix" := PStr "nick!user@host"]>
          (<["command" := PStr "JOIN"]> (<["params" := PStr "#foo"]> ∅)))).
Proof. vm_compute. reflexivity. Qed.

Example match_tags_with_space :
  groupdict Parser.PATTERN <$> Re.match_ Parser.PATTERN "@x y :p c z"
  = Some (<["tags" := PStr "x y"]> (<["prefix" := PStr "p"]>
          (<["command" := PStr "c"]> (<["params" := PStr "z"]> ∅)))).
Proof. vm_compute. reflexivity. Qed.

Example match_two_spaces :
  groupdict Parser.PATTERN <$> Re.match_ Parser.PATTERN ":a  b c d"
  = Some (<["tags" := PNone]> (<["prefix" := PStr "a"]>
          (<["command" := PStr "b"]> (<["params" := PStr "c d"]> ∅)))).
Proof. vm_compute. reflexivity. Qed.

Example match_empty_prefix :
  groupdict Parser.PATTERN <$> Re.match_ Parser.PATTERN ": CMD x"
  = Some (<["tags" := PNone]> (<["prefix" := PStr EmptyString]>
          (<["command" := PStr "CMD"]> (<["params" := PStr "x"]> ∅)))).
Proof. vm_compute. reflexivity. Qed.

Example match_colons :
  groupdict Parser.PATTERN <$> Re.match_ Parser.PATTERN "::: x y "
  = Some (<["tags" := PNone]> (<["prefix" := PStr "::"]>
          (<["command" := PStr "x"]> (<["params" := PStr "y "]> ∅)))).
Proof. vm_compute. reflexivity. Qed.

Example match_needs_colon : Re.match_ Parser.PATTERN "JOIN #foo" = None.
Proof. vm_compute. reflexivity. Qed.

Example match_stops_at_line_feed :
  Re.match_ Parser.PATTERN (":p c" +:+ String Py.LF "d e f") = None.
Proof. vm_compute. reflexivity. Qed.

Example extract_tags_pairs :
  Parser._extract_tags {["tags" := PStr "a=b;c;d=e=f"]} ∅
  = Return (<["a" := "b"]> (<["c" := EmptyString]> (<["d" := "e"]> ∅))).
Proof. vm_compute. reflexivity. Qed.

Example welcome_handler :
  Parser.parse_welcome
    (<["prefix" := PStr "tmi.twitch.tv"]> {["params" := PStr "nick :Welcome, GLHF!"]})
  = Return (Some (Parser.System
      {| Parser.type := Parser.GENERIC; Parser.user := PStr "tmi.twitch.tv";
         Parser.message := PStr "Welcome, GLHF!"; Parser.code := Parser.WELCOME |})).
Proof. vm_compute. reflexivity. Qed.

(** * Facts about the parser *)

Section ParserFacts.
Import Re Parser.

Lemma star_greedy_continues {R} c s (k : string -> option R) x :
  star_greedy c s k = Some x -> exists s', k s' = Some x.
Proof.
  induction s as [|a s IH]; simpl; intros H.
  - eauto.
  - destruct (accepts c a); [|eauto].
    destruct (star_greedy c s k) eqn:E; [|eauto].
    injection H as ->. apply IH. reflexivity.
Qed.

Lemma star_lazy_continues {R} c s (k : string -> option R) x :
  star_lazy c s k = Some x -> exists s', k s' = Some x.
Proof.
  induction s as [|a s IH]; simpl; intros H.
  - destruct (k EmptyString) eqn:E; [|discriminate]. injection H as ->. eauto.
  - destruct (k (String a s)) eqn:E.
    + injection H as ->. eauto.
    + destruct (accepts c a); [auto|discriminate].
Qed.

(** A successful run reaches its continuation, keeps the groups captured
    before and has captured the groups that lie on every path. *)
Lemma exec_continues {R} r :
  forall s caps (k : string -> gmap string string -> option R) x,
    exec r s caps k = Some x ->
    exists s' caps',
      k s' caps' = Some x
      /\ (forall n, is_Some (caps !! n) -> is_Some (caps' !! n))
      /\ (forall n, n ∈ always_named r -> is_Some (caps' !! n)).
Proof.
  induction r as [|c|r1 IH1 r2 IH2|r1 IH1 r2 IH2|r IH|c|c|c|name r IH];
    intros s caps k x H; simpl in *.
  - exists s, caps. split_and!; [done|done|]. intros n Hn. by apply elem_of_nil in Hn.
  - destruct s as [|a s]; [discriminate|]. destruct (accepts c a); [|discriminate].
    exists s, caps. split_and!; [done|done|]. intros n Hn. by apply elem_of_nil in Hn.
  - apply IH1 in H as (s1 & caps1 & H & Hk1 & Hn1).
    apply IH2 in H as (s2 & caps2 & H & Hk2 & Hn2).
    exists s2, caps2. split_and!; [done|auto|].
    intros n [Hn|Hn]%elem_of_app; auto.
  - destruct (exec r1 s caps k) eqn:E.
    + injection H as ->. apply IH1 in E as (s1 & caps1 & ? & ? & ?).
      exists s1, caps1. split_and!; [done|done|]. intros n Hn. by apply elem_of_nil in Hn.
    + apply IH2 in H as (s1 & caps1 & ? & ? & ?).
      exists s1, caps1. split_and!; [done|done|]. intros n Hn. by apply elem_of_nil in Hn.
  - destruct (exec r s caps k) eqn:E.
    + injection H as ->. apply IH in E as (s1 & caps1 & ? & ? & ?).
      exists s1, caps1. split_and!; [done|done|]. intros n Hn. by apply elem_of_nil in Hn.
    + exists s, caps. split_and!; [done|done|]. intros n Hn. by apply elem_of_nil in Hn.
  - apply star_greedy_continues in H as [s' H].
    exists s', caps. split_and!; [done|done|]. intros n Hn. by apply elem_of_nil in Hn.
  - apply star_lazy_continues in H as [s' H].
    exists s', caps. split_and!; [done|done|]. intros n Hn. by apply elem_of_nil in Hn.
  - destruct s as [|a s]; [discriminate|]. destruct (accepts c a); [|discriminate].
    apply star_greedy_continues in H as [s' H].
    exists s', caps. split_and!; [done|done|]. intros n Hn. by apply elem_of_nil in Hn.
  - apply IH in H as (s1 & caps1 & H & Hk & Hn).
    exists s1, (<[name := consumed s s1]> caps1). split_and!; [done| |].
    + intros n Hn'. destruct (decide (name = n)) as [->|Hne].
      * rewrite lookup_insert_eq. eauto.
      * rewrite lookup_insert_ne by done. auto.
    + intros n [->|Hn']%elem_of_cons.
      * rewrite lookup_insert_eq. eauto.
      * destruct (decide (name = n)) as [->|Hne].
        -- rewrite lookup_insert_eq. eauto.
        -- rewrite lookup_insert_ne by done. auto.
Qed.

(** A line that matches [PATTERN] has a prefix, a command and parameters. *)
Lemma match_captures line m :
  match_ PATTERN line = Some m ->
  is_Some (m !! "prefix") /\ is_Some (m !! "command") /\ is_Some (m !! "params").
Proof.
  intros H. unfold match_ in H.
  apply exec_continues in H as (s' & caps' & [= ->] & _ & Hn).
  split_and!; apply Hn; vm_compute; set_solver.
Qed.

Lemma groupdict_tags m :
  groupdict PATTERN m !! "tags" = Some (from_option PStr PNone (m !! "tags")).
Proof. unfold groupdict. simpl. by rewrite lookup_insert_eq. Qed.

Lemma groupdict_command m :
  groupdict PATTERN m !! "command" = Some (from_option PStr PNone (m !! "command")).
Proof.
  unfold groupdict. simpl.
  rewrite !lookup_insert_ne by done. by rewrite lookup_insert_eq.
Qed.

(** No member passes both tests of the loop, so the loop runs out. *)
Lemma dispatch_runs_out groups :
  dispatch getmembers groups =
  (command <- item groups "command" ;;
   Raise (ValueError ("No parser found for command " +:+ format command))).
Proof. reflexivity. Qed.

(** Were every member taken for a function, a command in capitals would
    still find no parser: the names of the handlers are in lower case. *)
Lemma capital_command_names_no_member is_function groups tok :
  groups !! "command" = Some (PStr tok) ->
  Py.isdigit tok = false ->
  (forall name, name ∈ getmembers.*1 -> String.eqb name ("parse_" +:+ tok) = false) ->
  dispatch_with is_function getmembers groups
  = Raise (ValueError ("No parser found for command " +:+ tok)).
Proof.
  intros Hc Hd Hn.
  assert (G : forall ms, (forall name, name ∈ ms.*1 -> name ∈ getmembers.*1) ->
              dispatch_with is_function ms groups
              = Raise (ValueError ("No parser found for command " +:+ tok))).
  { induction ms as [|[name inst] ms IH]; intros Hsub.
    - cbn [dispatch_with]. unfold item. rewrite Hc. reflexivity.
    - assert (IH' := IH (fun n Hin => Hsub n (list_elem_of_further _ _ _ Hin))).
      cbn [dispatch_with].
      destruct (negb (Py.startswith name "parse_")); [exact IH'|].
      destruct (negb (is_function inst)); [exact IH'|].
      unfold item. rewrite Hc. cbn [rbind as_str]. rewrite Hd. cbn [rbind].
      rewrite Hc. cbn [rbind format].
      rewrite (Hn name) by (apply Hsub; cbn; apply list_elem_of_here).
      exact IH'. }
  apply G. auto.
Qed.

Lemma split_not_nil sep n s : Py.split sep n s <> [].
Proof. unfold Py.split. destruct (Py.split_from sep n s). discriminate. Qed.

Lemma extract_segments_returns segments :
  forall tags, exists tags', extract_segments segments tags = Return tags'.
Proof.
  induction segments as [|seg rest IH]; intros tags; simpl; [eauto|].
  destruct (Py.split "=" None seg) as [|key [|value more]] eqn:E.
  - by apply split_not_nil in E.
  - apply IH.
  - apply IH.
Qed.

(** A line without a tag block: [groupdict] has the key [tags] all the
    same, with [None], and [_extract_tags] calls [split] on it. *)
Lemma parse_without_tags line m :
  match_ PATTERN line = Some m ->
  m !! "tags" = None ->
  parse line = Raise AttributeError.
Proof.
  intros Hm Ht. unfold parse. rewrite Hm. cbv zeta.
  rewrite groupdict_tags, Ht. simpl.
  unfold _extract_tags, split_item, item.
  rewrite groupdict_tags, Ht. reflexivity.
Qed.

(** A line with a tag block gets as far as the loop over the members,
    which finds no parser. *)
Lemma parse_with_tags line m tags tok :
  match_ PATTERN line = Some m ->
  m !! "tags" = Some tags ->
  m !! "command" = Some tok ->
  parse line = Raise (ValueError ("No parser found for command " +:+ tok)).
Proof.
  intros Hm Ht Hc. unfold parse. rewrite Hm. cbv zeta.
  rewrite groupdict_tags, Ht. simpl from_option.
  rewrite bool_decide_eq_true_2 by eauto.
  unfold _extract_tags, split_item, item.
  rewrite groupdict_tags, Ht. cbn [rbind as_str from_option].
  destruct (extract_segments_returns (Py.split ";" None tags) ∅) as [tags' ->].
  cbn [rbind]. rewrite dispatch_runs_out. unfold item.
  rewrite groupdict_command, Hc. reflexivity.
Qed.

End ParserFacts.

(** C9, as the code has it: every line that matches the grammar and
    omits the optional tag block makes [Parser.parse] raise
    [AttributeError] instead of giving the parse of the other components
    with an empty tag mapping.  [groupdict] holds the key [tags] with
    [None], so the test for the key succeeds and [_extract_tags] calls
    [split] on [None]. *)
Theorem parse_without_tag_block_raises line m :
  Re.match_ Parser.PATTERN line = Some m ->
  m !! "tags" = None ->
  Parser.parse line = Raise AttributeError.
Proof. apply parse_without_tags. Qed.

Lemma parse_without_tag_block_raises_witness :
  Parser.parse ":tmi.twitch.tv 001 nick :Welcome, GLHF!" = Raise AttributeError.
Proof.
  eapply parse_without_tag_block_raises.
  - vm_compute. reflexivity.
  - vm_compute. reflexivity.
Defined.

(** C1, as the code has it: a JOIN line with the prefix [nick!user@host]
    and the parameter [#foo] yields no join event.  Without a tag block
    the parse raises [AttributeError]; with one it raises [ValueError],
    because no member of the class passes [inspect.isfunction] and the
    name compared is [parse_JOIN]; a numeric code is looked for under its
    digits, [LOOKUP] is not consulted; and [parse_join], called on the
    groups of the line, raises [TypeError] in the constructor. *)
Theorem parse_join_line_yields_no_join_event :
  Parser.parse ":nick!user@host JOIN #foo" = Raise AttributeError
  /\ Parser.parse "@badges= :nick!user@host JOIN #foo"
     = Raise (ValueError "No parser found for command JOIN")
  /\ Parser.parse "@badges= :tmi.twitch.tv 001 nick :Welcome, GLHF!"
     = Raise (ValueError "No parser found for command 001")
  /\ Parser.LOOKUP !! 1%N = Some "welcome"
  /\ (Parser.parse_join ∘ groupdict Parser.PATTERN)
       <$> Re.match_ Parser.PATTERN ":nick!user@host JOIN #foo"
     = Some (Raise TypeError)
  /\ (forall is_function,
        Parser.dispatch_with is_function Parser.getmembers
          {["command" := PStr "JOIN"]}
        = Raise (ValueError "No parser found for command JOIN")).
Proof.
  do 5 (split; [vm_compute; reflexivity|]).
  intros is_function. apply capital_command_names_no_member.
  - reflexivity.
  - reflexivity.
  - intros name Hin. apply (bool_decide_unpack _).
    revert name Hin. apply Forall_forall. vm_compute.
    repeat constructor.
Qed.

(** C5, refuted as stated: the line below matches the grammar and its
    command has no handler; the parse raises [ValueError] and returns no
    variant at all. *)
Lemma parse_unknown_command_is_an_exception :
  Parser.parse "@badges= :tmi.twitch.tv FOO bar"
  = Raise (ValueError "No parser found for command FOO")
  /\ forall v, Parser.parse "@badges= :tmi.twitch.tv FOO bar" <> Return v.
Proof.
  assert (H : Parser.parse "@badges= :tmi.twitch.tv FOO bar"
              = Raise (ValueError "No parser found for command FOO"))
    by (vm_compute; reflexivity).
  split; [exact H|]. intros v Hv. rewrite H in Hv. discriminate.
Qed.

(** C5, amended: for every line that matches the general grammar with a
    tag block and whose command token names no handler, [Parser.parse]
    raises [ValueError] with the message [No parser found for command]
    followed by the raw command token. *)
Theorem parse_unmatched_command_raises line m tags tok :
  Re.match_ Parser.PATTERN line = Some m ->
  m !! "tags" = Some tags ->
  m !! "command" = Some tok ->
  Parser.handler_of ("parse_" +:+ tok) Parser.handlers = None ->
  Parser.parse line = Raise (ValueError ("No parser found for command " +:+ tok)).
Proof. intros Hm Ht Hc _. exact (parse_with_tags line m tags tok Hm Ht Hc). Qed.

Lemma parse_unmatched_command_raises_witness :
  Parser.parse "@badges= :tmi.twitch.tv FOO bar"
  = Raise (ValueError "No parser found for command FOO").
Proof.
  eapply (parse_unmatched_command_raises _ _ "badges=" "FOO").
  - vm_compute. reflexivity.
  - vm_compute. reflexivity.
  - vm_compute. reflexivity.
  - vm_compute. reflexivity.
Defined.

(** * Facts about the gateway *)

Section GatewayFacts.
Import Gateway.
Local Open Scope gw_scope.

(** Lower-casing never yields a capital C, so no lower-cased line starts
    with [CAP REQ]. *)
Lemma lower_char_not_C a : Ascii.eqb "C" (Py.lower_char a) = false.
Proof. destruct a as [[] [] [] [] [] [] [] []]; vm_compute; reflexivity. Qed.

Lemma lowered_never_cap_req content :
  Py.startswith (Py.lower content) "CAP REQ" = false.
Proof.
  destruct content as [|a s]; [reflexivity|].
  cbn [Py.lower Py.startswith]. rewrite lower_char_not_C. reflexivity.
Qed.

(** *** The two counting buckets, one caller *)

Lemma wait_and_increment_priv_below g :
  _priv_sent g < _priv_limit ->
  wait_and_increment_priv g = Done tt (set_priv_sent (_priv_sent g + 1) g).
Proof.
  intros H. unfold wait_and_increment_priv, bind, gets. cbn [pbind].
  rewrite (proj2 (Nat.leb_gt _ _) H). reflexivity.
Qed.

Lemma wait_and_increment_priv_at_capacity g :
  _priv_limit <= _priv_sent g ->
  wait_and_increment_priv g
  = Blocked on_priv_limit_reset
      (fun g2 => Done tt (set_priv_sent (_priv_sent g2 + 1) g2)).
Proof.
  intros H. unfold wait_and_increment_priv, bind, gets. cbn [pbind].
  rewrite (proj2 (Nat.leb_le _ _) H). reflexivity.
Qed.

Lemma wait_and_increment_join_below g :
  _join_sent g < _join_limit ->
  wait_and_increment_join g = Done tt (set_join_sent (_join_sent g + 1) g).
Proof.
  intros H. unfold wait_and_increment_join, bind, gets. cbn [pbind].
  rewrite (proj2 (Nat.leb_gt _ _) H). reflexivity.
Qed.

Lemma wait_and_increment_join_at_capacity g :
  _join_limit <= _join_sent g ->
  wait_and_increment_join g
  = Blocked on_join_limit_reset
      (fun g2 => Done tt (set_join_sent (_join_sent g2 + 1) g2)).
Proof.
  intros H. unfold wait_and_increment_join, bind, gets. cbn [pbind].
  rewrite (proj2 (Nat.leb_le _ _) H). reflexivity.
Qed.

(** *** [send_raw_message] *)

Lemma send_raw_message_counts_join content g :
  send_raw_message content None g
  = (wait_and_increment_join >> sendTextMessage (terminated content)) g.
Proof.
  unfold send_raw_message. cbn [default negb when].
  rewrite lowered_never_cap_req. reflexivity.
Qed.

Lemma send_raw_message_below_capacity content g :
  _join_sent g < _join_limit ->
  send_raw_message content None g = Done tt (after_join_send (terminated content) g).
Proof.
  intros H. rewrite send_raw_message_counts_join. unfold bind.
  rewrite wait_and_increment_join_below by exact H. reflexivity.
Qed.

Lemma send_raw_message_at_capacity content g :
  _join_limit <= _join_sent g ->
  send_raw_message content None g
  = Blocked on_join_limit_reset
      (fun g2 => Done tt (after_join_send (terminated content) g2)).
Proof.
  intros H. rewrite send_raw_message_counts_join. unfold bind.
  rewrite wait_and_increment_join_at_capacity by exact H. reflexivity.
Qed.

Lemma increment_whisper_list user l g :
  _whispered_accounts g = AccountList l ->
  increment_whisper user g
  = Done tt
      (let g1 := if bool_decide (user ∈ l) then g
                 else set_whispered_accounts (AccountList (l ++ [user])) g in
       let g2 := set_whispers_this_second (_whispers_this_second g1 + 1) g1 in
       set_whispers_this_minute (_whispers_this_minute g2 + 1) g2).
Proof.
  intros H. unfold increment_whisper, not_in_accounts, bind, gets. cbn [pbind].
  rewrite H. cbn [pbind ret].
  destruct (bool_decide (user ∈ l)); cbn [negb when pbind ret].
  - reflexivity.
  - rewrite H. reflexivity.
Qed.

Lemma can_whisper_true_list user g g' :
  can_whisper user g = Done true g' -> exists l, _whispered_accounts g = AccountList l.
Proof.
  unfold can_whisper, not_in_accounts, bind, gets. cbn [pbind].
  destruct (_whispered_accounts g) as [l|n]; [eauto|]. discriminate.
Qed.

(** The lines of the handshake all go through the join bucket. *)
Lemma rejoin_lines_count_join l :
  forall g,
    _join_sent g + length l <= _join_limit ->
    exists g',
      for_each l (fun channel => send_raw_message ("JOIN #" +:+ channel) None) g
      = Done tt g'
      /\ _join_sent g' = _join_sent g + length l
      /\ _priv_sent g' = _priv_sent g.
Proof.
  induction l as [|channel l IH]; intros g H; cbn [for_each length] in *.
  - exists g. split; [reflexivity|]. split; [lia|reflexivity].
  - unfold bind. rewrite send_raw_message_below_capacity by lia. cbn [pbind].
    destruct (IH (after_join_send (terminated ("JOIN #" +:+ channel)) g))
      as (g' & Hd & Hj & Hp).
    + change (_join_sent (after_join_send _ g)) with (_join_sent g + 1). lia.
    + exists g'. split; [exact Hd|]. rewrite Hj, Hp.
      change (_join_sent (after_join_send _ g)) with (_join_sent g + 1).
      split; [lia|reflexivity].
Qed.

Lemma handshake_counts_join g :
  isValid (_socket g) = true ->
  _join_sent g + 5 + length (channels g) <= _join_limit ->
  exists g',
    process_connection g = Done tt g'
    /\ _join_sent g' = _join_sent g + 5 + length (channels g)
    /\ _priv_sent g' = _priv_sent g.
Proof.
  intros Hv H. unfold process_connection, bind, gets. cbn [pbind].
  rewrite Hv. cbn [negb].
  destruct (_join_started g); cbn [negb when ret pbind];
    unfold bind, singleShot, modify; cbn [pbind];
    do 5 (rewrite send_raw_message_below_capacity
            by (cbn [_join_sent after_join_send set_join_sent set_socket
                     set_timer set_join_started]; lia);
          cbn [pbind]);
    match goal with
    | |- context [for_each ?l ?f ?g5] =>
        destruct (rejoin_lines_count_join l g5) as (g' & Hd & Hj & Hp);
          [cbn; lia|];
        exists g'; split; [exact Hd|]; rewrite Hj, Hp; cbn; split; [lia|reflexivity]
    end.
Qed.

(** C10: with [ignore_limit] false or left out, [send_raw_message] takes
    from the join/auth bucket whatever the line is: the test for
    [CAP REQ] is made on the lower-cased line and never succeeds, so the
    call is [wait_and_increment_join] followed by the send, the join
    counter goes up by one and the chat counter stays.  That holds of the
    whisper sent through [send_whisper_message] and of the handshake of
    [process_connection], whose PASS, NICK and three CAP REQ lines and the
    JOIN lines after them raise the join counter by five and the number
    of channels. *)
Theorem rate_limited_lines_consume_join_bucket :
  (forall content ignore_limit g,
      default false ignore_limit = false ->
      send_raw_message content ignore_limit g
      = (wait_and_increment_join >> sendTextMessage (terminated content)) g)
  /\ (forall content g,
        _join_sent g < _join_limit ->
        exists g', send_raw_message content None g = Done tt g'
                   /\ _join_sent g' = _join_sent g + 1
                   /\ _priv_sent g' = _priv_sent g)
  /\ (forall content g,
        _join_limit <= _join_sent g ->
        exists k, send_raw_message content None g = Blocked on_join_limit_reset k
                  /\ forall g2, exists g', k g2 = Done tt g'
                       /\ _join_sent g' = _join_sent g2 + 1
                       /\ _priv_sent g' = _priv_sent g2)
  /\ (forall user text g,
        can_whisper user g = Done true g ->
        _join_sent g < _join_limit ->
        exists g', send_whisper_message user text g = Done tt g'
                   /\ _join_sent g' = _join_sent g + 1
                   /\ _priv_sent g' = _priv_sent g)
  /\ (forall g,
        isValid (_socket g) = true ->
        _join_sent g + 5 + length (channels g) <= _join_limit ->
        exists g', process_connection g = Done tt g'
                   /\ _join_sent g' = _join_sent g + 5 + length (channels g)
                   /\ _priv_sent g' = _priv_sent g).
Proof.
  split_and!; [| | | |exact handshake_counts_join].
  - intros content il g Hil. unfold send_raw_message. rewrite Hil.
    cbn [negb when]. rewrite lowered_never_cap_req. reflexivity.
  - intros content g H. eexists. split.
    + apply send_raw_message_below_capacity, H.
    + split; reflexivity.
  - intros content g H. eexists. split.
    + apply send_raw_message_at_capacity, H.
    + intros g2. eexists. split; [reflexivity|]. split; reflexivity.
  - intros user text g Hc H.
    destruct (can_whisper_true_list _ _ _ Hc) as [l Hl].
    unfold send_whisper_message, bind. rewrite Hc. cbn [pbind negb when ret].
    rewrite send_raw_message_below_capacity by exact H. cbn [pbind].
    rewrite (increment_whisper_list user l) by exact Hl.
    eexists. split; [reflexivity|].
    destruct (bool_decide (user ∈ l)); split; reflexivity.
Qed.

Lemma rate_limited_lines_consume_join_bucket_witness :
  send_raw_message "CAP REQ :twitch.tv/tags" None fresh
  = Done tt (after_join_send ("CAP REQ :twitch.tv/tags" +:+ Py.CRLF) fresh)
  /\ exists g', send_whisper_message "someone" "hi" fresh = Done tt g'
                /\ _join_sent g' = 1 /\ _priv_sent g' = 0.
Proof.
  destruct rate_limited_lines_consume_join_bucket as (H1 & H2 & H3 & H4 & H5).
  split.
  - rewrite (H1 "CAP REQ :twitch.tv/tags" None fresh); reflexivity.
  - apply (H4 "someone" "hi" fresh).
    + reflexivity.
    + vm_compute. lia.
Defined.

(** C8: the keep-alive probe is answered at once with the PONG line
    (the line terminator added), and the chat, join and whisper counters
    and the whispered accounts are as before. *)
Theorem ping_is_answered_outside_the_buckets g :
  exists g',
    process_message PING_LINE g = Done tt g'
    /\ written (_socket g') = written (_socket g) ++ ["PONG :tmi.twitch.tv" +:+ Py.CRLF]
    /\ _priv_sent g' = _priv_sent g
    /\ _join_sent g' = _join_sent g
    /\ _whispers_this_second g' = _whispers_this_second g
    /\ _whispers_this_minute g' = _whispers_this_minute g
    /\ _whispered_accounts g' = _whispered_accounts g.
Proof.
  eexists. split; [reflexivity|]. split_and!; reflexivity.
Qed.

(** *** [join] and [part] *)

Lemma join_below_capacity channel g :
  _join_sent g < _join_limit ->
  join channel g
  = Done tt
      (let g1 := after_join_send (terminated ("JOIN #" +:+ channel)) g in
       if bool_decide (channel ∈ channels g) then g1
       else set_channels (channels g ++ [channel]) g1).
Proof.
  intros H. unfold join, bind.
  rewrite send_raw_message_below_capacity by exact H. cbn [pbind gets].
  change (channels (after_join_send _ g)) with (channels g).
  destruct (bool_decide (channel ∈ channels g)); reflexivity.
Qed.

Lemma part_below_capacity channel g :
  _join_sent g < _join_limit ->
  part channel g
  = Done tt
      (let g1 := after_join_send (terminated ("PART #" +:+ channel)) g in
       if bool_decide (channel ∈ channels g)
       then set_channels (remove_first channel (channels g)) g1
       else g1).
Proof.
  intros H. unfold part, bind.
  rewrite send_raw_message_below_capacity by exact H. cbn [pbind gets].
  change (channels (after_join_send _ g)) with (channels g).
  destruct (bool_decide (channel ∈ channels g)); reflexivity.
Qed.

(** C6, refuted as stated: two calls of [join] for the same channel with
    no [part] between them both return, and the second one sends a second
    JOIN line. *)
Lemma second_join_sends_again :
  exists g1 g2,
    join "foo" fresh = Done tt g1
    /\ channels g1 = ["foo"]
    /\ join "foo" g1 = Done tt g2
    /\ channels g2 = ["foo"]
    /\ written (_socket g2) = ["JOIN #foo" +:+ Py.CRLF; "JOIN #foo" +:+ Py.CRLF].
Proof.
  eexists. eexists. split_and!; vm_compute; reflexivity.
Qed.

(** C6, amended: while the join/auth bucket has room, [join] of a channel
    that is in the membership list returns normally, sends the JOIN line
    once more and leaves the list as it is; [part] of a channel that is not
    in the list returns normally, sends the PART line and leaves the list
    as it is. *)
Theorem join_and_part_send_regardless channel g :
  _join_sent g < _join_limit ->
  (channel ∈ channels g ->
   exists g', join channel g = Done tt g'
              /\ channels g' = channels g
              /\ written (_socket g')
                 = written (_socket g) ++ [terminated ("JOIN #" +:+ channel)])
  /\ (channel ∉ channels g ->
      exists g', part channel g = Done tt g'
                 /\ channels g' = channels g
                 /\ written (_socket g')
                    = written (_socket g) ++ [terminated ("PART #" +:+ channel)]).
Proof.
  intros H. split; intros Hc.
  - eexists. split; [apply join_below_capacity, H|].
    cbv zeta. rewrite bool_decide_eq_true_2 by exact Hc. split; reflexivity.
  - eexists. split; [apply part_below_capacity, H|].
    cbv zeta. rewrite bool_decide_eq_false_2 by exact Hc. split; reflexivity.
Qed.

Lemma join_and_part_send_regardless_witness :
  (exists g', join "foo" (set_channels ["foo"] fresh) = Done tt g'
              /\ channels g' = ["foo"]
              /\ written (_socket g') = ["JOIN #foo" +:+ Py.CRLF])
  /\ (exists g', part "bar" (set_channels ["foo"] fresh) = Done tt g'
                 /\ channels g' = ["foo"]
                 /\ written (_socket g') = ["PART #bar" +:+ Py.CRLF]).
Proof.
  assert (H : _join_sent (set_channels ["foo"] fresh) < _join_limit)
    by (vm_compute; lia).
  destruct (join_and_part_send_regardless "foo" _ H) as [Hj _].
  destruct (join_and_part_send_regardless "bar" _ H) as [_ Hp].
  split.
  - apply Hj. apply (bool_decide_unpack _). vm_compute. exact I.
  - apply Hp. apply (bool_decide_unpack _). vm_compute. exact I.
Defined.

(** *** The counting buckets with several callers *)

(** Within one window, that is with no reset, the callers that find the
    bucket full are suspended and the count stays within the limit. *)
Lemma chat_count_within_limit_without_reset n w :
  _priv_sent (gw w) <= _priv_limit ->
  _priv_sent (gw (Nat.iter n (invoke wait_and_increment_priv) w)) <= _priv_limit.
Proof.
  intros H. induction n as [|n IH]; [exact H|].
  rewrite Nat.iter_succ. set (w' := Nat.iter n (invoke wait_and_increment_priv) w) in *.
  unfold invoke.
  destruct (Nat.lt_ge_cases (_priv_sent (gw w')) _priv_limit) as [Hlt|Hge].
  - rewrite wait_and_increment_priv_below by exact Hlt. cbn. lia.
  - rewrite wait_and_increment_priv_at_capacity by exact Hge. cbn. exact IH.
Qed.

Lemma join_count_within_limit_without_reset n w :
  _join_sent (gw w) <= _join_limit ->
  _join_sent (gw (Nat.iter n (invoke wait_and_increment_join) w)) <= _join_limit.
Proof.
  intros H. induction n as [|n IH]; [exact H|].
  rewrite Nat.iter_succ. set (w' := Nat.iter n (invoke wait_and_increment_join) w) in *.
  unfold invoke.
  destruct (Nat.lt_ge_cases (_join_sent (gw w')) _join_limit) as [Hlt|Hge].
  - rewrite wait_and_increment_join_below by exact Hlt. cbn. lia.
  - rewrite wait_and_increment_join_at_capacity by exact Hge. cbn. exact IH.
Qed.

(** A single caller that was suspended goes on after the reset with a
    count of one. *)
Lemma reset_releases_one_caller g :
  _priv_limit <= _priv_sent g ->
  let w := reset_priv_limit None (invoke wait_and_increment_priv (start g)) in
  _priv_sent (gw w) = 1 /\ waiting w = [].
Proof.
  intros H. unfold invoke. cbn [start gw].
  rewrite wait_and_increment_priv_at_capacity by exact H.
  split; reflexivity.
Qed.

(** C2, as the code has it: the callers released by a reset increment
    the counter without looking at the limit again.  Forty-one chat lines
    in one window: twenty are sent and twenty-one callers are suspended
    with the count at 20; the reset zeroes the count, all twenty-one go
    on, and the count is 21.  The join/auth bucket does the same with 50
    and fifty-one. *)
Theorem released_callers_overrun_the_bucket :
  let w := chat_lines 41 (start fresh) in
  _priv_sent (gw w) = 20
  /\ length (waiting w) = 21
  /\ _priv_sent (gw (reset_priv_limit None w)) = 21
  /\ _priv_limit < _priv_sent (gw (reset_priv_limit None w))
  /\ let v := raw_lines 101 (start fresh) in
     _join_sent (gw v) = 50
     /\ length (waiting v) = 51
     /\ _join_sent (gw (reset_join_limit None v)) = 51
     /\ _join_limit < _join_sent (gw (reset_join_limit None v)).
Proof.
  cbv zeta. split_and!; vm_compute; reflexivity.
Qed.

(** *** Whispers *)

Lemma can_whisper_false_at_account_limit user l g :
  _whispered_accounts g = AccountList l ->
  user ∉ l ->
  _whisper_accounts_limit <= length l ->
  can_whisper user g = Done false g.
Proof.
  intros Hl Hn Hfull.
  unfold can_whisper, not_in_accounts, len_accounts, bind, gets. cbn [pbind].
  rewrite Hl. cbn [pbind ret].
  rewrite bool_decide_eq_false_2 by exact Hn. cbn [negb pbind ret].
  rewrite Hl. cbn [pbind ret].
  rewrite (proj2 (Nat.leb_le _ _) Hfull). reflexivity.
Qed.

Lemma wait_for_whisper_returns g :
  _whispers_this_minute g < _whisper_minute_limit ->
  _whispers_this_second g < _whisper_second_limit ->
  wait_for_whisper None g = Done tt g.
Proof.
  intros Hm Hs. unfold wait_for_whisper, bind, gets. cbn [pbind].
  rewrite (proj2 (Nat.leb_gt _ _) Hm), (proj2 (Nat.leb_gt _ _) Hs). reflexivity.
Qed.

(** Whatever the state: with the list at or over the limit and the other
    whisper counters below theirs, a whisper to a new recipient is not
    suspended: the whisper line is written to the socket and the
    recipient is appended. *)
Lemma whisper_to_new_recipient_at_limit user text l g :
  _whispered_accounts g = AccountList l ->
  user ∉ l ->
  _whisper_accounts_limit <= length l ->
  _whispers_this_minute g < _whisper_minute_limit ->
  _whispers_this_second g < _whisper_second_limit ->
  _join_sent g < _join_limit ->
  exists g', send_whisper_message user text g = Done tt g'
             /\ written (_socket g')
                = written (_socket g)
                  ++ [terminated ("PRIVMSG #jtv :.w " +:+ user +:+ " " +:+ text)]
             /\ _whispered_accounts g' = AccountList (l ++ [user]).
Proof.
  intros Hl Hn Hfull Hm Hs Hj. unfold send_whisper_message, bind.
  rewrite (can_whisper_false_at_account_limit user l) by assumption.
  cbn [pbind negb when].
  rewrite wait_for_whisper_returns by assumption. cbn [pbind].
  rewrite send_raw_message_below_capacity by exact Hj. cbn [pbind].
  rewrite (increment_whisper_list user l) by exact Hl.
  eexists. split; [reflexivity|].
  rewrite bool_decide_eq_false_2 by exact Hn. split; reflexivity.
Qed.

(** C3, as the code has it: [send_whisper_message] calls
    [wait_for_whisper] without [include_accounts], so a whisper to a new
    recipient does not wait for the account reset.  After whispers to
    forty recipients, one a second, [can_whisper] is false for a
    forty-first; the call still goes through without being suspended and
    the list of whispered accounts has 41 entries. *)
Theorem forty_first_recipient_is_recorded :
  let w := whispers 40 (start fresh) in
  let w' := invoke (send_whisper_message (recipient 40) "hi") w in
  account_count (gw w) = Some 40
  /\ can_whisper (recipient 40) (gw w) = Done false (gw w)
  /\ waiting w' = []
  /\ uncaught w' = []
  /\ account_count (gw w') = Some 41
  /\ _whisper_accounts_limit < 41.
Proof.
  cbv zeta. split_and!; vm_compute; reflexivity.
Qed.

(** *** The daily reset *)

Lemma days_not_positive dif : (dif < DAY)%Z -> (days dif <= 0)%Z.
Proof.
  intros H. unfold days.
  assert (dif / DAY < 1)%Z; [|lia].
  apply Z.div_lt_upper_bound; unfold DAY in *; lia.
Qed.

Lemma days_positive dif : (DAY <= dif)%Z -> (0 < days dif)%Z.
Proof.
  intros H. unfold days.
  assert (1 <= dif / DAY)%Z; [|lia].
  apply Z.div_le_lower_bound; unfold DAY in *; lia.
Qed.

(** Once the deadline has passed, and up to a day before it, the daily
    reset returns at its guard. *)
Lemma reset_whisper_daily_returns_when_due now deadline automated w :
  whisper_reset (gw w) = Some deadline ->
  (deadline - now < DAY)%Z ->
  reset_whisper_daily now automated w = Finished w.
Proof.
  intros Hd H. unfold reset_whisper_daily. rewrite Hd.
  rewrite (proj2 (Z.leb_le _ _) (days_not_positive _ H)). reflexivity.
Qed.

(** A day or more before the deadline it assigns the [int] 0 and moves
    the deadline to a day from now. *)
Lemma reset_whisper_daily_runs_early now deadline w :
  whisper_reset (gw w) = Some deadline ->
  waiting w = [] ->
  (DAY <= deadline - now)%Z ->
  exists w', reset_whisper_daily now None w = Finished w'
             /\ _whispered_accounts (gw w') = AccountInt 0
             /\ whisper_reset (gw w') = Some (now + DAY)%Z.
Proof.
  intros Hd Hw H. unfold reset_whisper_daily. rewrite Hd.
  assert (E : (days (deadline - now) <=? 0)%Z = false).
  { apply Z.leb_gt. apply days_positive, H. }
  rewrite E. eexists. split; [reflexivity|].
  unfold emit, on_gateway. cbn [waiting gw]. rewrite Hw. split; reflexivity.
Qed.

(** C4, as the code has it: the guard of [reset_whisper_daily] is the
    wrong way round and the clearing assigns an [int].  With the
    deadline an hour in the past the reset changes nothing; two days
    before the deadline it replaces the list by 0 and moves the deadline,
    after which the membership test of [can_whisper] raises [TypeError];
    and [reset_whisper_minutes] replaces the list by 0 as well. *)
Theorem daily_reset_is_early_and_leaves_an_int :
  let deadline := (1000 * DAY)%Z in
  let hour := 3600000000%Z in
  let g := set_whispered_accounts (AccountList ["someone"]) (fresh_until deadline) in
  reset_whisper_daily (deadline + hour) None (start g) = Finished (start g)
  /\ (let w := world_of (reset_whisper_daily (deadline - 2 * DAY) None (start g)) in
      _whispered_accounts (gw w) = AccountInt 0
      /\ whisper_reset (gw w) = Some (deadline - DAY)%Z
      /\ can_whisper "someone" (gw w) = Raised TypeError (gw w))
  /\ (let w := world_of (reset_whisper_minutes (deadline - 2 * DAY) None (start g)) in
      _whispered_accounts (gw w) = AccountInt 0
      /\ whisper_reset (gw w) = Some deadline).
Proof.
  cbv zeta. split_and!; vm_compute; reflexivity.
Qed.

(** *** Reconnection *)

Section Reconnection.
Variable connects : nat -> nat -> bool.

Lemma reconnect_loop_exhausts (Hfail : forall i msec, connects i msec = false) n :
  forall fuel i g,
    isValid (_socket g) = false ->
    _reconnect_attempts g + n = 6 ->
    n < fuel ->
    exists g',
      reconnect_loop connects fuel i g = Some (Done tt g')
      /\ opened (_socket g') = opened (_socket g) ++ replicate n (url g)
      /\ _reconnect_attempts g' = 0
      /\ isValid (_socket g') = false
      /\ _should_reconnect g' = _should_reconnect g.
Proof.
  induction n as [|n IH]; intros fuel i g Hv Ha Hf.
  - destruct fuel as [|fuel]; [lia|]. cbn [reconnect_loop]. rewrite Hv.
    rewrite (proj2 (Nat.ltb_lt 5 (_reconnect_attempts g))) by lia.
    eexists. split; [reflexivity|]. cbn [replicate]. rewrite app_nil_r.
    split_and!; try reflexivity. exact Hv.
  - destruct fuel as [|fuel]; [lia|]. cbn [reconnect_loop]. rewrite Hv.
    rewrite (proj2 (Nat.ltb_ge 5 (_reconnect_attempts g))) by lia.
    unfold bind, socket_open, wait_for_connected_or_timeout, modify. cbn [pbind].
    match goal with |- context [reconnect_loop _ _ _ ?g1] => set (g1' := g1) end.
    destruct (IH fuel (S i) g1') as (g' & Hl & Ho & Hr & Hv' & Hs).
    + subst g1'. cbn. apply Hfail.
    + subst g1'. cbn. lia.
    + lia.
    + exists g'. split; [exact Hl|]. rewrite Ho, Hr, Hv', Hs.
      subst g1'. cbn. rewrite <- app_assoc. split_and!; reflexivity.
Qed.

End Reconnection.

(** C7, refuted as stated: with a transport that never comes back the
    call returns normally after the sixth attempt, raising nothing and
    with the counter back at zero; with a transport that comes back at
    the first attempt the counter is left at one. *)
Lemma reconnection_reports_nothing :
  (exists g', process_disconnection never_connects 7 fresh = Some (Done tt g')
              /\ length (opened (_socket g')) = 6
              /\ _reconnect_attempts g' = 0
              /\ on_message g' = [])
  /\ (exists g', process_disconnection connects_at_once 7 fresh = Some (Done tt g')
                 /\ isValid (_socket g') = true
                 /\ _reconnect_attempts g' = 1).
Proof.
  split; eexists; split_and!; vm_compute; reflexivity.
Qed.

(** C7, amended: on a disconnect with reconnection enabled the gateway
    opens the transport again and again.  Starting from an attempt
    counter of zero, if every attempt fails it makes exactly six
    attempts; the call then stops retrying, puts the counter back to zero
    and returns normally, raising nothing, the socket still invalid and
    reconnection still enabled. *)
Theorem reconnection_gives_up_after_six_failures connects fuel g :
  _should_reconnect g = true ->
  isValid (_socket g) = false ->
  _reconnect_attempts g = 0 ->
  (forall i msec, connects i msec = false) ->
  6 < fuel ->
  exists g',
    process_disconnection connects fuel g = Some (Done tt g')
    /\ opened (_socket g') = opened (_socket g) ++ replicate 6 (url g)
    /\ _reconnect_attempts g' = 0
    /\ isValid (_socket g') = false
    /\ _should_reconnect g' = true.
Proof.
  intros Hs Hv Ha Hfail Hfuel.
  destruct (reconnect_loop_exhausts connects Hfail 6 fuel 0 g)
    as (g' & Hl & Ho & Hr & Hv' & Hs'); [exact Hv|rewrite Ha; reflexivity|lia|].
  exists g'. unfold process_disconnection. rewrite Hs, Hl. cbn [negb].
  rewrite Hv'. split_and!; [reflexivity|exact Ho|exact Hr|reflexivity|].
  rewrite Hs'. exact Hs.
Qed.

Lemma reconnection_gives_up_after_six_failures_witness :
  exists g',
    process_disconnection never_connects 7 fresh = Some (Done tt g')
    /\ opened (_socket g') = replicate 6 "irc-ws.chat.twitch.tv:443"
    /\ _reconnect_attempts g' = 0
    /\ isValid (_socket g') = false
    /\ _should_reconnect g' = true.
Proof.
  apply (reconnection_gives_up_after_six_failures never_connects 7 fresh).
  - reflexivity.
  - reflexivity.
  - reflexivity.
  - intros i msec. reflexivity.
  - lia.
Defined.

End GatewayFacts.

(** * More about the parser *)

Section PatternFacts.
Import Re Lang Parser.

Lemma append_cons a (u v : string) : String a u +:+ v = String a (u +:+ v).
Proof. reflexivity. Qed.

Lemma append_empty_l (v : string) : EmptyString +:+ v = v.
Proof. reflexivity. Qed.

Lemma append_assoc (u v w : string) : (u +:+ v) +:+ w = u +:+ (v +:+ w).
Proof.
  induction u as [|a u IH]; [reflexivity|].
  rewrite !append_cons. f_equal. exact IH.
Qed.

Lemma length_append (u v : string) :
  String.length (u +:+ v) = String.length u + String.length v.
Proof.
  induction u as [|a u IH]; [reflexivity|].
  rewrite append_cons. cbn [String.length]. rewrite IH. reflexivity.
Qed.

Lemma substring_whole_prefix (u v : string) :
  substring 0 (String.length u) (u +:+ v) = u.
Proof.
  induction u as [|a u IH].
  - destruct v; reflexivity.
  - rewrite append_cons. cbn [String.length substring]. f_equal. exact IH.
Qed.

Lemma consumed_append (u v : string) : consumed (u +:+ v) v = u.
Proof.
  unfold consumed. rewrite length_append.
  replace (String.length u + String.length v - String.length v)
    with (String.length u) by lia.
  apply substring_whole_prefix.
Qed.

Lemma all_chars_append p (u v : string) :
  Py.all_chars p (u +:+ v) = Py.all_chars p u && Py.all_chars p v.
Proof.
  induction u as [|a u IH]; [reflexivity|].
  rewrite append_cons. cbn [Py.all_chars]. rewrite IH. by rewrite andb_assoc.
Qed.

Lemma star_greedy_consumes {R} c s (k : string -> option R) x :
  star_greedy c s k = Some x ->
  exists w s', s = w +:+ s' /\ Py.all_chars (accepts c) w = true /\ k s' = Some x.
Proof.
  induction s as [|a s IH]; simpl; intros H.
  - exists EmptyString, EmptyString. auto.
  - destruct (accepts c a) eqn:Ea.
    + destruct (star_greedy c s k) eqn:E.
      * injection H as ->. destruct (IH eq_refl) as (w & s' & -> & Hw & Hk).
        exists (String a w), s'. simpl. rewrite Ea, Hw. auto.
      * exists EmptyString, (String a s). auto.
    + exists EmptyString, (String a s). auto.
Qed.

Lemma star_lazy_consumes {R} c s (k : string -> option R) x :
  star_lazy c s k = Some x ->
  exists w s', s = w +:+ s' /\ Py.all_chars (accepts c) w = true /\ k s' = Some x.
Proof.
  induction s as [|a s IH]; simpl; intros H.
  - destruct (k EmptyString) eqn:E; [|discriminate]. injection H as ->.
    exists EmptyString, EmptyString. auto.
  - destruct (k (String a s)) eqn:E.
    + injection H as ->. exists EmptyString, (String a s). auto.
    + destruct (accepts c a) eqn:Ea; [|discriminate].
      destruct (IH H) as (w & s' & -> & Hw & Hk).
      exists (String a w), s'. simpl. rewrite Ea, Hw. auto.
Qed.

(** The matcher is sound: when a run succeeds, what it consumed is a word
    of the pattern, and every group it holds at the end was either held
    before or is a word of a group of that name. *)
Lemma exec_sound {R} r :
  forall s caps (k : string -> gmap string string -> option R) x,
    exec r s caps k = Some x ->
    exists w s' caps',
      s = w +:+ s'
      /\ lang r w
      /\ k s' caps' = Some x
      /\ (forall n v, caps' !! n = Some v -> caps !! n = Some v \/ captured_by r n v).
Proof.
  induction r as [|c|r1 IH1 r2 IH2|r1 IH1 r2 IH2|r IH|c|c|c|name r IH];
    intros s caps k x H; simpl in H.
  - exists EmptyString, s, caps. simpl. auto.
  - destruct s as [|a s]; [discriminate|]. destruct (accepts c a) eqn:Ea; [|discriminate].
    exists (String a EmptyString), s, caps. simpl. split_and!; eauto.
  - apply IH1 in H as (w1 & s1 & caps1 & -> & L1 & H & C1).
    apply IH2 in H as (w2 & s2 & caps2 & -> & L2 & H & C2).
    exists (w1 +:+ w2), s2, caps2. split_and!.
    + by rewrite append_assoc.
    + simpl. eauto.
    + exact H.
    + intros n v Hv. simpl. destruct (C2 n v Hv) as [Hv1|]; [|auto].
      destruct (C1 n v Hv1); auto.
  - destruct (exec r1 s caps k) eqn:E.
    + injection H as ->. apply IH1 in E as (w & s' & caps' & -> & L & H & C).
      exists w, s', caps'. split_and!; simpl; auto.
      intros n v Hv. destruct (C n v Hv); auto.
    + apply IH2 in H as (w & s' & caps' & -> & L & H & C).
      exists w, s', caps'. split_and!; simpl; auto.
      intros n v Hv. destruct (C n v Hv); auto.
  - destruct (exec r s caps k) eqn:E.
    + injection H as ->. apply IH in E as (w & s' & caps' & -> & L & H & C).
      exists w, s', caps'. split_and!; simpl; auto.
    + exists EmptyString, s, caps. simpl. auto.
  - apply star_greedy_consumes in H as (w & s' & -> & Hw & H).
    exists w, s', caps. simpl. auto.
  - apply star_lazy_consumes in H as (w & s' & -> & Hw & H).
    exists w, s', caps. simpl. auto.
  - destruct s as [|a s]; [discriminate|]. destruct (accepts c a) eqn:Ea; [|discriminate].
    apply star_greedy_consumes in H as (w & s' & -> & Hw & H).
    exists (String a w), s', caps. simpl. rewrite Ea, Hw. split_and!; auto.
  - apply IH in H as (w & s' & caps' & -> & L & H & C).
    rewrite consumed_append in H.
    exists w, s', (<[name := w]> caps'). split_and!; simpl; auto.
    intros n v Hv. destruct (decide (name = n)) as [<-|Hne].
    + rewrite lookup_insert_eq in Hv. injection Hv as <-. auto.
    + rewrite lookup_insert_ne in Hv by done. destruct (C n v Hv); auto.
Qed.

Lemma decimal_is_word a : Py.is_decimal a = true -> is_word a = true.
Proof. destruct a as [[] [] [] [] [] [] [] []]; vm_compute; auto. Qed.

Lemma word_is_no_line_feed a : is_word a = true -> no_line_feed a = true.
Proof. destruct a as [[] [] [] [] [] [] [] []]; vm_compute; auto. Qed.

Lemma all_chars_impl (p q : ascii -> bool) s :
  (forall a, p a = true -> q a = true) ->
  Py.all_chars p s = true -> Py.all_chars q s = true.
Proof.
  intros Hpq. induction s as [|a s IH]; cbn [Py.all_chars]; [done|].
  intros [Ha Hs]%andb_true_iff. rewrite (Hpq a Ha), (IH Hs). reflexivity.
Qed.

(** What each group of [PATTERN] can hold. *)
Lemma pattern_groups name v :
  captured_by PATTERN name v ->
  (name = "tags" /\ Py.all_chars no_line_feed v = true)
  \/ (name = "prefix" /\ Py.all_chars no_line_feed v = true)
  \/ (name = "command" /\ v <> EmptyString /\ Py.all_chars is_word v = true)
  \/ (name = "params" /\ Py.all_chars no_line_feed v = true).
Proof.
  unfold PATTERN, cat. cbn [foldr captured_by lang accepts].
  intros H.
  repeat match type of H with
         | _ \/ _ => destruct H as [H|H]
         | False => destruct H
         | _ /\ _ => destruct H as [<- H]
         end; auto.
  right. right. left. destruct H as [Hne Hw]. split_and!; auto.
  eapply all_chars_impl; [|exact Hw]. apply decimal_is_word.
Qed.

Lemma match_groups line m name v :
  match_ PATTERN line = Some m ->
  m !! name = Some v ->
  captured_by PATTERN name v.
Proof.
  intros H Hv. unfold match_ in H.
  apply exec_sound in H as (w & s' & caps' & _ & _ & [= ->] & C).
  destruct (C name v Hv) as [He|]; [|done].
  by rewrite lookup_empty in He.
Qed.

End PatternFacts.

(** The command token of a line that matched is a non-empty run of word
    characters: [parse] never sees an empty or punctuated command. *)
Theorem command_token_is_a_word line m :
  Re.match_ Parser.PATTERN line = Some m ->
  exists tok, m !! "command" = Some tok
              /\ tok <> EmptyString
              /\ Py.all_chars Re.is_word tok = true.
Proof.
  intros H. destruct (match_captures line m H) as (_ & [tok Ht] & _).
  exists tok. split; [exact Ht|].
  destruct (pattern_groups _ _ (match_groups _ _ _ _ H Ht))
    as [[? _]|[[? _]|[(_ & ? & ?)|[? _]]]]; done.
Qed.

Lemma command_token_is_a_word_witness :
  exists tok, ({["prefix" := "p"; "command" := "JOIN"; "params" := "#c"]}
                 : gmap string string) !! "command" = Some tok
              /\ tok <> EmptyString
              /\ Py.all_chars Re.is_word tok = true.
Proof.
  apply (command_token_is_a_word ":p JOIN #c").
  vm_compute. reflexivity.
Defined.

(** No group of a line that matched holds a line feed: the match stops
    at the first one. *)
Theorem groups_hold_no_line_feed line m name v :
  Re.match_ Parser.PATTERN line = Some m ->
  m !! name = Some v ->
  Py.all_chars Lang.no_line_feed v = true.
Proof.
  intros H Hv.
  destruct (pattern_groups _ _ (match_groups _ _ _ _ H Hv))
    as [[_ ?]|[[_ ?]|[(_ & _ & ?)|[_ ?]]]]; try done.
  eapply all_chars_impl; [|eassumption]. apply word_is_no_line_feed.
Qed.

Lemma groups_hold_no_line_feed_witness :
  Py.all_chars Lang.no_line_feed "#c" = true.
Proof.
  apply (groups_hold_no_line_feed (":p JOIN #c" +:+ String Py.LF "x")
           {["prefix" := "p"; "command" := "JOIN"; "params" := "#c"]} "params").
  - vm_compute. reflexivity.
  - vm_compute. reflexivity.
Defined.

Section ParseFacts.
Import Re Lang Parser.

Lemma match_needs_at_or_colon line :
  Py.startswith line "@" = false ->
  Py.startswith line ":" = false ->
  match_ PATTERN line = None.
Proof.
  destruct line as [|a s]; [reflexivity|].
  cbn [Py.startswith]. intros Hat Hcolon. revert Hat Hcolon.
  destruct (Ascii.eqb "@" a) eqn:Fat; [by destruct s|].
  destruct (Ascii.eqb ":" a) eqn:Fcolon; [by destruct s|]. intros _ _.
  rewrite Ascii.eqb_sym in Fat. rewrite Ascii.eqb_sym in Fcolon.
  unfold match_, PATTERN, cat. cbn [foldr exec accepts]. rewrite Fat, Fcolon. reflexivity.
Qed.

End ParseFacts.

(** A line that starts neither with an at sign nor with a colon, such as
    a bare [PING] or [JOIN] line, is a grammar error: [parse] raises the
    [ValueError] without message. *)
Theorem line_without_colon_is_a_grammar_error line :
  Py.startswith line "@" = false ->
  Py.startswith line ":" = false ->
  Parser.parse line = Raise (ValueError EmptyString).
Proof.
  intros H1 H2. unfold Parser.parse.
  rewrite (match_needs_at_or_colon line H1 H2). reflexivity.
Qed.

Lemma line_without_colon_is_a_grammar_error_witness :
  Parser.parse "PING :tmi.twitch.tv" = Raise (ValueError EmptyString).
Proof.
  apply (line_without_colon_is_a_grammar_error "PING :tmi.twitch.tv"); reflexivity.
Defined.

(** [parse] returns for no line at all: it raises the grammar error, or
    [AttributeError] for a line without tag block, or the [ValueError]
    of the loop that finds no parser. *)
Theorem parse_raises_on_every_line line :
  Parser.parse line = Raise (ValueError EmptyString)
  \/ Parser.parse line = Raise AttributeError
  \/ exists tok,
       Parser.parse line = Raise (ValueError ("No parser found for command " +:+ tok)).
Proof.
  destruct (Re.match_ Parser.PATTERN line) as [m|] eqn:Hm.
  - destruct (m !! "tags") as [tags|] eqn:Ht.
    + destruct (match_captures line m Hm) as (_ & [tok Hc] & _).
      right. right. exists tok. exact (parse_with_tags line m tags tok Hm Ht Hc).
    + right. left. exact (parse_without_tags line m Hm Ht).
  - left. unfold Parser.parse. rewrite Hm. reflexivity.
Qed.

Section HandlerFacts.
Import Re Lang Parser.

Lemma extract_segments_dom segments :
  forall tags tags',
    extract_segments segments tags = Return tags' ->
    dom tags' = dom tags ∪ list_to_set (tag_key <$> segments).
Proof.
  induction segments as [|seg rest IH]; intros tags tags' H; cbn [extract_segments] in H.
  - injection H as <-. cbn [fmap list_fmap list_to_set]. by rewrite (right_id_L ∅ (∪)).
  - cbn [fmap list_fmap list_to_set].
    assert (Hk : forall key more, Py.split "=" None seg = key :: more -> tag_key seg = key).
    { intros key more E. unfold tag_key. rewrite E. reflexivity. }
    destruct (Py.split "=" None seg) as [|key [|value more]] eqn:E; [discriminate| |];
      apply IH in H; rewrite H, dom_insert_L, (Hk key _ eq_refl);
      fold (tag_key <$> rest); by rewrite (assoc_L (∪)), (comm_L (∪) {[key]}).
Qed.

Lemma split_from_zero sep s : Py.split_from sep (Some 0) s = (s, []).
Proof.
  induction s as [|a s IH]; [reflexivity|].
  cbn [Py.split_from]. rewrite bool_decide_eq_true_2 by reflexivity.
  cbn [negb]. rewrite andb_false_r, IH. reflexivity.
Qed.

Lemma split_from_plain sep n word :
  Py.all_chars (fun a => negb (Ascii.eqb a sep)) word = true ->
  Py.split_from sep n word = (word, []).
Proof.
  induction word as [|a w IH]; intros Hw; [reflexivity|].
  cbn [Py.all_chars] in Hw. apply andb_true_iff in Hw as [Ha Ht].
  cbn [Py.split_from]. apply negb_true_iff in Ha. rewrite Ha. cbn [andb].
  rewrite (IH Ht). reflexivity.
Qed.

Lemma split_once sep target rest :
  Py.all_chars (fun a => negb (Ascii.eqb a sep)) target = true ->
  Py.split sep (Some 1) (target +:+ String sep rest) = [target; rest].
Proof.
  unfold Py.split. induction target as [|a target IH]; intros H.
  - rewrite append_empty_l. cbn [Py.split_from]. rewrite Ascii.eqb_refl.
    rewrite bool_decide_eq_false_2 by discriminate.
    cbn [negb andb fmap option_fmap option_map Nat.pred].
    rewrite split_from_zero. reflexivity.
  - cbn [Py.all_chars] in H. apply andb_true_iff in H as [Ha Ht].
    rewrite append_cons. cbn [Py.split_from].
    apply negb_true_iff in Ha. rewrite Ha. cbn [andb].
    specialize (IH Ht).
    destruct (Py.split_from sep (Some 1) (target +:+ String sep rest)) as [h t].
    injection IH as -> ->. reflexivity.
Qed.

Lemma last_item_end h t word : Py.last_item h (t ++ [word]) = word.
Proof. revert h. induction t as [|x t IH]; intros h; [reflexivity|]. apply IH. Qed.

(** The last piece of a split at every separator is what follows the
    last separator. *)
Lemma split_from_ends_with sep front word :
  Py.all_chars (fun a => negb (Ascii.eqb a sep)) word = true ->
  exists h t, Py.split_from sep None (front +:+ String sep word) = (h, t ++ [word]).
Proof.
  intros Hw. induction front as [|a front IH].
  - rewrite append_empty_l. cbn [Py.split_from]. rewrite Ascii.eqb_refl.
    rewrite bool_decide_eq_false_2 by discriminate.
    cbn [negb andb fmap option_fmap option_map].
    rewrite (split_from_plain sep None word Hw). exists EmptyString, []. reflexivity.
  - destruct IH as (h & t & IH). rewrite append_cons. cbn [Py.split_from].
    rewrite bool_decide_eq_false_2 by discriminate.
    cbn [negb fmap option_fmap option_map]. rewrite andb_true_r, IH.
    destruct (Ascii.eqb a sep).
    + exists EmptyString, (h :: t). reflexivity.
    + exists (String a h), t. reflexivity.
Qed.

Lemma split_last sep front word :
  Py.all_chars (fun a => negb (Ascii.eqb a sep)) word = true ->
  last (Py.split sep None (front +:+ String sep word)) = word.
Proof.
  intros Hw. destruct (split_from_ends_with sep front word Hw) as (h & t & E).
  unfold Py.split. rewrite E. cbn [last]. apply last_item_end.
Qed.

End HandlerFacts.

(** [_extract_tags] does not raise on a tag block, and the keys of the
    mapping it fills are exactly the texts before the first equals sign
    of the segments of the block. *)
Theorem extract_tags_keys (c : gmap string pyobj) block :
  c !! "tags" = Some (PStr block) ->
  exists tags,
    Parser._extract_tags c ∅ = Return tags
    /\ dom tags = list_to_set (Lang.tag_key <$> Py.split ";" None block).
Proof.
  intros Hc. unfold Parser._extract_tags, Parser.split_item, Parser.item.
  rewrite Hc. cbn [rbind Parser.as_str].
  destruct (extract_segments_returns (Py.split ";" None block) ∅) as [tags Ht].
  exists tags. split; [exact Ht|].
  rewrite (extract_segments_dom _ _ _ Ht), dom_empty_L. by rewrite (left_id_L ∅ (∪)).
Qed.

Lemma extract_tags_keys_witness :
  exists tags,
    Parser._extract_tags {["tags" := PStr "badges=mod/1;color=;turbo"]} ∅ = Return tags
    /\ dom tags = list_to_set (Lang.tag_key <$> Py.split ";" None "badges=mod/1;color=;turbo").
Proof.
  apply (extract_tags_keys {["tags" := PStr "badges=mod/1;color=;turbo"]}).
  vm_compute. reflexivity.
Defined.

(** The handlers of the numeric replies that carry a text: on parameters
    [target :text], with no space in the target, the message of the
    result is the text, the user is the prefix of the line for the
    welcome reply and the system id for the others; [parse_my_info]
    keeps the target as user and an empty message. *)
Theorem numeric_reply_handlers_extract_text (data : gmap string pyobj) target text :
  data !! "params" = Some (PStr (target +:+ " :" +:+ text)) ->
  Py.all_chars Lang.no_space target = true ->
  let reply user message code :=
    Return (Some (Parser.System
      {| Parser.type := Parser.GENERIC; Parser.user := user;
         Parser.message := PStr message; Parser.code := code |})) in
  (forall prefix, data !! "prefix" = Some prefix ->
     Parser.parse_welcome data = reply prefix text Parser.WELCOME)
  /\ Parser.parse_your_host data = reply (PStr Parser.SYSTEM_ID) text Parser.YOUR_HOST
  /\ Parser.parse_created data = reply (PStr Parser.SYSTEM_ID) text Parser.CREATED
  /\ Parser.parse_motd_start data = reply (PStr Parser.SYSTEM_ID) text Parser.MOTD_START
  /\ Parser.parse_motd_end data = reply (PStr Parser.SYSTEM_ID) text Parser.MOTD_END
  /\ Parser.parse_my_info data = reply (PStr target) EmptyString Parser.MY_INFO.
Proof.
  intros Hp Ht reply.
  assert (Hs : Parser.split_item data "params" " " (Some 1)
               = Return [target; String ":" text]).
  { unfold Parser.split_item, Parser.item. rewrite Hp. cbn [rbind Parser.as_str].
    f_equal. apply (split_once " " target (String ":" text)). exact Ht. }
  split_and!.
  - intros prefix Hx. unfold Parser.parse_welcome. rewrite Hs. cbn [rbind].
    unfold Parser.item. rewrite Hx. reflexivity.
  - unfold Parser.parse_your_host. rewrite Hs. reflexivity.
  - unfold Parser.parse_created. rewrite Hs. reflexivity.
  - unfold Parser.parse_motd_start. rewrite Hs. reflexivity.
  - unfold Parser.parse_motd_end. rewrite Hs. reflexivity.
  - unfold Parser.parse_my_info. rewrite Hs. reflexivity.
Qed.

Lemma numeric_reply_handlers_extract_text_witness :
  Parser.parse_your_host {["params" := PStr "nick :Your host is tmi.twitch.tv"]}
  = Return (Some (Parser.System
      {| Parser.type := Parser.GENERIC; Parser.user := PStr "tmi.twitch.tv";
         Parser.message := PStr "Your host is tmi.twitch.tv";
         Parser.code := Parser.YOUR_HOST |})).
Proof.
  apply (numeric_reply_handlers_extract_text
           {["params" := PStr "nick :Your host is tmi.twitch.tv"]}
           "nick" "Your host is tmi.twitch.tv").
  - vm_compute. reflexivity.
  - reflexivity.
Defined.

(** [parse_motd] splits at every space and keeps the last piece: of a
    text of several words only the last word is left, less its first
    character. *)
Theorem parse_motd_keeps_the_last_word (data : gmap string pyobj) front word :
  data !! "params" = Some (PStr (front +:+ " " +:+ word)) ->
  Py.all_chars Lang.no_space word = true ->
  Parser.parse_motd data
  = Return (Some (Parser.System
      {| Parser.type := Parser.GENERIC; Parser.user := PStr Parser.SYSTEM_ID;
         Parser.message := PStr (Py.slice_from 1 word); Parser.code := Parser.MOTD |})).
Proof.
  intros Hp Hw. unfold Parser.parse_motd, Parser.split_item, Parser.item.
  rewrite Hp. cbn [rbind Parser.as_str].
  change (front +:+ " " +:+ word) with (front +:+ String " " word).
  rewrite (split_last " " front word Hw). reflexivity.
Qed.

Lemma parse_motd_keeps_the_last_word_witness :
  Parser.parse_motd {["params" := PStr "nick :You are in a maze"]}
  = Return (Some (Parser.System
      {| Parser.type := Parser.GENERIC; Parser.user := PStr "tmi.twitch.tv";
         Parser.message := PStr "aze"; Parser.code := Parser.MOTD |})).
Proof.
  apply (parse_motd_keeps_the_last_word
           {["params" := PStr "nick :You are in a maze"]} "nick :You are in a" "maze").
  - vm_compute. reflexivity.
  - reflexivity.
Defined.

(** The handlers that build one of the subclasses of [SystemMessage], and
    [parse_cap], return for no groups at all: the inherited constructor
    misses arguments, so what does not fail earlier raises [TypeError]. *)
Theorem subclass_handlers_never_return (data : gmap string pyobj) v :
  Parser.parse_join data <> Return v
  /\ Parser.parse_part data <> Return v
  /\ Parser.parse_mode data <> Return v
  /\ Parser.parse_name_reply data <> Return v
  /\ Parser.parse_hosttarget data <> Return v
  /\ Parser.parse_cap data <> Return v
  /\ Parser.parse_clearchat data <> Return v
  /\ Parser.parse_clearmsg data <> Return v.
Proof.
  split_and!;
    unfold Parser.parse_join, Parser.parse_part, Parser.parse_mode,
      Parser.parse_name_reply, Parser.parse_hosttarget, Parser.parse_cap,
      Parser.parse_clearchat, Parser.parse_clearmsg, Parser.split_item,
      Parser.item, Parser.slice, Parser.as_str, Parser.ClearChatMessage_init;
    repeat case_match; cbn; try discriminate;
    repeat (case_match; cbn; try discriminate).
Qed.

(** * More about the gateway *)

Section ChatFacts.
Import Gateway Commands.
Local Open Scope gw_scope.

Lemma send_priv_message_below_capacity channel content g :
  _priv_sent g < _priv_limit ->
  send_priv_message channel content g
  = Done tt (after_chat_line (terminated ("PRIVMSG #" +:+ channel +:+ " :" +:+ content)) g).
Proof.
  intros H. unfold send_priv_message, bind, gets. cbn [pbind].
  destruct (_priv_started g) eqn:Es; cbn [negb when ret pbind];
    unfold bind, singleShot, modify; cbn [pbind].
  - rewrite wait_and_increment_priv_below by exact H. cbn [pbind].
    unfold after_chat_line. rewrite Es. reflexivity.
  - rewrite wait_and_increment_priv_below by exact H. cbn [pbind].
    unfold after_chat_line. rewrite Es. reflexivity.
Qed.

Lemma followers_duration_without_months mins hrs days wks mnths :
  truthy mnths = false ->
  truthy wks || truthy days || truthy hrs || truthy mins = true ->
  followers_duration mins hrs days wks mnths = Raise TypeError.
Proof.
  intros Hm Hany. unfold followers_duration, add_unit. rewrite Hm.
  destruct (truthy wks); [reflexivity|]. cbn [rbind].
  destruct (truthy days); [reflexivity|]. cbn [rbind].
  destruct (truthy hrs); [reflexivity|]. cbn [rbind].
  destruct (truthy mins); [reflexivity|]. discriminate.
Qed.

End ChatFacts.

(** A chat line that finds room in the chat bucket: one line
    [PRIVMSG #channel :content] goes to the socket, terminated; the chat
    count goes up by one and the join count stays; and the first chat
    line, and only the first, arms the reset of the bucket, after
    [1000 * _priv_limit] milliseconds. *)
Theorem chat_line_uses_the_chat_bucket channel content g :
  Gateway._priv_sent g < Gateway._priv_limit ->
  exists g',
    Gateway.send_priv_message channel content g = Gateway.Done tt g'
    /\ Gateway.written (Gateway._socket g')
       = Gateway.written (Gateway._socket g)
         ++ [Gateway.terminated ("PRIVMSG #" +:+ channel +:+ " :" +:+ content)]
    /\ Gateway._priv_sent g' = Gateway._priv_sent g + 1
    /\ Gateway._join_sent g' = Gateway._join_sent g
    /\ Gateway._priv_started g' = true
    /\ Gateway._timer g'
       = if Gateway._priv_started g then Gateway._timer g
         else Gateway._timer g ++ [(1000 * Gateway._priv_limit, Gateway._reset_priv_limit_auto)].
Proof.
  intros H. eexists. split; [apply send_priv_message_below_capacity, H|].
  unfold Commands.after_chat_line.
  destruct (Gateway._priv_started g) eqn:E; split_and!; try reflexivity. exact E.
Qed.

Lemma chat_line_uses_the_chat_bucket_witness :
  exists g',
    Gateway.send_priv_message "foo" "hi" Gateway.fresh = Gateway.Done tt g'
    /\ Gateway.written (Gateway._socket g') = ["PRIVMSG #foo :hi" +:+ Py.CRLF]
    /\ Gateway._priv_sent g' = 1
    /\ Gateway._join_sent g' = 0
    /\ Gateway._priv_started g' = true
    /\ Gateway._timer g' = [(1000 * Gateway._priv_limit, Gateway._reset_priv_limit_auto)].
Proof.
  apply (chat_line_uses_the_chat_bucket "foo" "hi" Gateway.fresh).
  vm_compute. lia.
Defined.

(** Every chat-room command whose arguments do not raise sends exactly
    one chat line whose text starts with a dot, takes one unit from the
    chat bucket and none from the join bucket. *)
Theorem room_commands_send_one_chat_line cmd channel g :
  Gateway._priv_sent g < Gateway._priv_limit ->
  match cmd with
  | Commands.Followers mins hrs days wks mnths =>
      exists d, Commands.followers_duration mins hrs days wks mnths = Return d
  | _ => True
  end ->
  exists text g',
    Commands.perform cmd channel g = Gateway.Done tt g'
    /\ Gateway.written (Gateway._socket g')
       = Gateway.written (Gateway._socket g)
         ++ [Gateway.terminated ("PRIVMSG #" +:+ channel +:+ " :." +:+ text)]
    /\ Gateway._priv_sent g' = Gateway._priv_sent g + 1
    /\ Gateway._join_sent g' = Gateway._join_sent g.
Proof.
  intros H Hargs.
  assert (G : forall text,
             exists g',
               Gateway.send_priv_message channel (String "." text) g = Gateway.Done tt g'
               /\ Gateway.written (Gateway._socket g')
                  = Gateway.written (Gateway._socket g)
                    ++ [Gateway.terminated ("PRIVMSG #" +:+ channel +:+ " :." +:+ text)]
               /\ Gateway._priv_sent g' = Gateway._priv_sent g + 1
               /\ Gateway._join_sent g' = Gateway._join_sent g).
  { intros text. eexists.
    split; [apply (send_priv_message_below_capacity channel (String "." text) g H)|].
    unfold Commands.after_chat_line.
    destruct (Gateway._priv_started g); split_and!; reflexivity. }
  destruct cmd; cbn [Commands.perform];
    try (eexists; apply G).
  destruct Hargs as [d Hd].
  unfold Commands.followers, Gateway.bind, Commands.lift. rewrite Hd.
  cbn [Gateway.pbind]. eexists. apply G.
Qed.

Lemma room_commands_send_one_chat_line_witness :
  exists text g',
    Commands.perform (Commands.Timeout "troll" None None) "foo" Gateway.fresh
    = Gateway.Done tt g'
    /\ Gateway.written (Gateway._socket g')
       = [Gateway.terminated ("PRIVMSG #" +:+ "foo" +:+ " :." +:+ text)]
    /\ Gateway._priv_sent g' = 1
    /\ Gateway._join_sent g' = 0.
Proof.
  apply (room_commands_send_one_chat_line (Commands.Timeout "troll" None None)
           "foo" Gateway.fresh).
  - vm_compute. lia.
  - exact I.
Defined.

(** [followers] with weeks, days, hours or minutes but without months
    appends a string to the [int] 0: it raises [TypeError], and nothing
    is sent or counted. *)
Theorem followers_without_months_raises channel mins hrs days wks mnths g :
  Commands.truthy mnths = false ->
  Commands.truthy wks || Commands.truthy days || Commands.truthy hrs
    || Commands.truthy mins = true ->
  Commands.followers channel mins hrs days wks mnths g = Gateway.Raised TypeError g.
Proof.
  intros Hm Hany. unfold Commands.followers, Gateway.bind, Commands.lift.
  rewrite (followers_duration_without_months _ _ _ _ _ Hm Hany). reflexivity.
Qed.

Lemma followers_without_months_raises_witness :
  Commands.followers "foo" (Some 30%Z) None None None None Gateway.fresh
  = Gateway.Raised TypeError Gateway.fresh.
Proof.
  apply (followers_without_months_raises "foo" (Some 30%Z) None None None None);
    reflexivity.
Defined.

Section BucketFacts.
Import Gateway Commands.
Local Open Scope gw_scope.

(** The continuation of a caller suspended in [wait_and_increment_priv]. *)
Lemma suspended_chat_callers n g :
  _priv_limit <= _priv_sent g ->
  Nat.iter n (invoke wait_and_increment_priv) (start g)
  = {| gw := g;
       waiting := replicate n (on_priv_limit_reset,
                               fun g2 => Done tt (set_priv_sent (_priv_sent g2 + 1) g2));
       uncaught := [] |}.
Proof.
  intros H. induction n as [|n IH]; [reflexivity|].
  rewrite Nat.iter_succ, IH. unfold invoke. cbn [gw].
  rewrite wait_and_increment_priv_at_capacity by exact H. reflexivity.
Qed.

Lemma release_chat_callers n :
  forall w,
    let w' := release (replicate n (on_priv_limit_reset,
                         fun g2 => Done tt (set_priv_sent (_priv_sent g2 + 1) g2))) w in
    _priv_sent (gw w') = _priv_sent (gw w) + n /\ waiting w' = waiting w.
Proof.
  induction n as [|n IH]; intros w; cbn [replicate release].
  - split; [lia|reflexivity].
  - destruct (IH (settle (Done tt (set_priv_sent (_priv_sent (gw w) + 1) (gw w))) w))
      as [Hc Hw].
    cbv zeta. rewrite Hc, Hw. cbn. split; [lia|reflexivity].
Qed.

Lemma suspended_join_callers n g :
  _join_limit <= _join_sent g ->
  Nat.iter n (invoke wait_and_increment_join) (start g)
  = {| gw := g;
       waiting := replicate n (on_join_limit_reset,
                               fun g2 => Done tt (set_join_sent (_join_sent g2 + 1) g2));
       uncaught := [] |}.
Proof.
  intros H. induction n as [|n IH]; [reflexivity|].
  rewrite Nat.iter_succ, IH. unfold invoke. cbn [gw].
  rewrite wait_and_increment_join_at_capacity by exact H. reflexivity.
Qed.

Lemma release_join_callers n :
  forall w,
    let w' := release (replicate n (on_join_limit_reset,
                         fun g2 => Done tt (set_join_sent (_join_sent g2 + 1) g2))) w in
    _join_sent (gw w') = _join_sent (gw w) + n /\ waiting w' = waiting w.
Proof.
  induction n as [|n IH]; intros w; cbn [replicate release].
  - split; [lia|reflexivity].
  - destruct (IH (settle (Done tt (set_join_sent (_join_sent (gw w) + 1) (gw w))) w))
      as [Hc Hw].
    cbv zeta. rewrite Hc, Hw. cbn. split; [lia|reflexivity].
Qed.

Lemma filter_replicate_all {A} (p : A -> bool) n x :
  p x = true -> filter (fun c => p c) (replicate n x) = replicate n x.
Proof.
  intros H. induction n as [|n IH]; [reflexivity|].
  cbn [replicate]. rewrite filter_cons_True by (rewrite H; exact I). by rewrite IH.
Qed.

Lemma filter_replicate_none {A} (p : A -> bool) n x :
  p x = true -> filter (fun c => negb (p c)) (replicate n x) = [].
Proof.
  intros H. induction n as [|n IH]; [reflexivity|].
  cbn [replicate]. rewrite filter_cons_False by (rewrite H; exact id). exact IH.
Qed.

End BucketFacts.

(** After a reset the count of a bucket is the number of callers that
    were suspended on it: each of them goes on and increments, and none
    stays suspended.  The count is within the limit exactly when no more
    callers than the limit were waiting. *)
Theorem reset_count_is_number_of_released_callers n g :
  Gateway._priv_limit <= Gateway._priv_sent g ->
  let w := Gateway.reset_priv_limit None
             (Nat.iter n (Gateway.invoke Gateway.wait_and_increment_priv) (Gateway.start g)) in
  Gateway._priv_sent (Gateway.gw w) = n /\ Gateway.waiting w = [].
Proof.
  intros H. cbv zeta. rewrite (suspended_chat_callers n g H).
  unfold Gateway.reset_priv_limit, Gateway.arm, Gateway.emit, Gateway.on_gateway.
  cbn [default Gateway.gw Gateway.waiting Gateway.uncaught].
  rewrite (filter_replicate_all (Gateway.waits_for Gateway.on_priv_limit_reset))
    by reflexivity.
  rewrite (filter_replicate_none (Gateway.waits_for Gateway.on_priv_limit_reset))
    by reflexivity.
  match goal with
  | |- context [Gateway.release _ ?w0] =>
      destruct (release_chat_callers n w0) as [Hc Hw]
  end.
  cbv zeta in Hc, Hw. rewrite Hc, Hw. split; reflexivity.
Qed.

Lemma reset_count_is_number_of_released_callers_witness :
  let w := Gateway.reset_priv_limit None
             (Nat.iter 3 (Gateway.invoke Gateway.wait_and_increment_priv)
                (Gateway.start (Gateway.set_priv_sent 20 Gateway.fresh))) in
  Gateway._priv_sent (Gateway.gw w) = 3 /\ Gateway.waiting w = [].
Proof.
  apply (reset_count_is_number_of_released_callers 3
           (Gateway.set_priv_sent 20 Gateway.fresh)).
  vm_compute. lia.
Defined.

(** The same for the join/auth bucket. *)
Theorem join_reset_count_is_number_of_released_callers n g :
  Gateway._join_limit <= Gateway._join_sent g ->
  let w := Gateway.reset_join_limit None
             (Nat.iter n (Gateway.invoke Gateway.wait_and_increment_join) (Gateway.start g)) in
  Gateway._join_sent (Gateway.gw w) = n /\ Gateway.waiting w = [].
Proof.
  intros H. cbv zeta. rewrite (suspended_join_callers n g H).
  unfold Gateway.reset_join_limit, Gateway.arm, Gateway.emit, Gateway.on_gateway.
  cbn [default Gateway.gw Gateway.waiting Gateway.uncaught].
  rewrite (filter_replicate_all (Gateway.waits_for Gateway.on_join_limit_reset))
    by reflexivity.
  rewrite (filter_replicate_none (Gateway.waits_for Gateway.on_join_limit_reset))
    by reflexivity.
  match goal with
  | |- context [Gateway.release _ ?w0] =>
      destruct (release_join_callers n w0) as [Hc Hw]
  end.
  cbv zeta in Hc, Hw. rewrite Hc, Hw. split; reflexivity.
Qed.

Lemma join_reset_count_is_number_of_released_callers_witness :
  let w := Gateway.reset_join_limit None
             (Nat.iter 2 (Gateway.invoke Gateway.wait_and_increment_join)
                (Gateway.start (Gateway.set_join_sent 50 Gateway.fresh))) in
  Gateway._join_sent (Gateway.gw w) = 2 /\ Gateway.waiting w = [].
Proof.
  apply (join_reset_count_is_number_of_released_callers 2
           (Gateway.set_join_sent 50 Gateway.fresh)).
  vm_compute. lia.
Defined.

Section WhisperFacts.
Import Gateway Commands.
Local Open Scope gw_scope.

Lemma can_whisper_decides user l g :
  _whispered_accounts g = AccountList l ->
  can_whisper user g
  = Done (negb (negb (bool_decide (user ∈ l)) && (_whisper_accounts_limit <=? length l))
          && negb (_whisper_minute_limit <=? _whispers_this_minute g)
          && negb (_whisper_second_limit <=? _whispers_this_second g)) g.
Proof.
  intros Hl. unfold can_whisper, not_in_accounts, len_accounts, bind, gets.
  cbn [pbind]. rewrite Hl. cbn [pbind ret].
  destruct (bool_decide (user ∈ l)); cbn [negb pbind ret andb].
  - destruct (_whisper_minute_limit <=? _whispers_this_minute g); [reflexivity|].
    destruct (_whisper_second_limit <=? _whispers_this_second g); reflexivity.
  - rewrite Hl. cbn [pbind ret].
    destruct (_whisper_accounts_limit <=? length l); [reflexivity|].
    cbn [negb andb].
    destruct (_whisper_minute_limit <=? _whispers_this_minute g); [reflexivity|].
    destruct (_whisper_second_limit <=? _whispers_this_second g); reflexivity.
Qed.

End WhisperFacts.

(** [can_whisper] leaves the gateway as it is and allows a whisper
    exactly when the recipient is known or the list of accounts is below
    its limit, and both the count of the minute and the count of the
    second are below theirs. *)
Theorem can_whisper_characterised user l g :
  Gateway._whispered_accounts g = Gateway.AccountList l ->
  exists b,
    Gateway.can_whisper user g = Gateway.Done b g
    /\ (b = true <->
        (user ∈ l \/ length l < Gateway._whisper_accounts_limit)
        /\ Gateway._whispers_this_minute g < Gateway._whisper_minute_limit
        /\ Gateway._whispers_this_second g < Gateway._whisper_second_limit).
Proof.
  intros Hl. eexists. split; [apply (can_whisper_decides user l g Hl)|].
  rewrite !andb_true_iff, !negb_true_iff, andb_false_iff, negb_false_iff.
  rewrite bool_decide_eq_true, !Nat.leb_gt. tauto.
Qed.

Lemma can_whisper_characterised_witness :
  exists b,
    Gateway.can_whisper "someone" Gateway.fresh = Gateway.Done b Gateway.fresh
    /\ (b = true <->
        ("someone" ∈ ([] : list string) \/ length ([] : list string) < Gateway._whisper_accounts_limit)
        /\ Gateway._whispers_this_minute Gateway.fresh < Gateway._whisper_minute_limit
        /\ Gateway._whispers_this_second Gateway.fresh < Gateway._whisper_second_limit).
Proof.
  apply (can_whisper_characterised "someone" [] Gateway.fresh). reflexivity.
Defined.

(** A recipient already in the list does not count against the account
    limit: however long the list is, a whisper to a known recipient goes
    out (the other counts permitting), the list stays as it is and the
    counts of the second, of the minute and of the join bucket go up by
    one. *)
Theorem known_recipient_does_not_count user text l g :
  Gateway._whispered_accounts g = Gateway.AccountList l ->
  user ∈ l ->
  Gateway._whispers_this_minute g < Gateway._whisper_minute_limit ->
  Gateway._whispers_this_second g < Gateway._whisper_second_limit ->
  Gateway._join_sent g < Gateway._join_limit ->
  exists g',
    Gateway.send_whisper_message user text g = Gateway.Done tt g'
    /\ Gateway._whispered_accounts g' = Gateway.AccountList l
    /\ Gateway._whispers_this_second g' = Gateway._whispers_this_second g + 1
    /\ Gateway._whispers_this_minute g' = Gateway._whispers_this_minute g + 1
    /\ Gateway._join_sent g' = Gateway._join_sent g + 1
    /\ Gateway.written (Gateway._socket g')
       = Gateway.written (Gateway._socket g)
         ++ [Gateway.terminated ("PRIVMSG #jtv :.w " +:+ user +:+ " " +:+ text)].
Proof.
  intros Hl Hin Hm Hs Hj.
  unfold Gateway.send_whisper_message, Gateway.bind.
  rewrite (can_whisper_decides user l g Hl).
  rewrite bool_decide_eq_true_2 by exact Hin.
  rewrite (proj2 (Nat.leb_gt _ _) Hm), (proj2 (Nat.leb_gt _ _) Hs).
  cbn [negb andb Gateway.pbind Gateway.when Gateway.ret].
  rewrite send_raw_message_below_capacity by exact Hj. cbn [Gateway.pbind].
  rewrite (increment_whisper_list user l) by exact Hl.
  rewrite bool_decide_eq_true_2 by exact Hin.
  eexists. split; [reflexivity|]. split_and!; try reflexivity. exact Hl.
Qed.

Lemma known_recipient_does_not_count_witness :
  let g := Gateway.set_whispered_accounts (Gateway.AccountList ["someone"]) Gateway.fresh in
  exists g',
    Gateway.send_whisper_message "someone" "hi" g = Gateway.Done tt g'
    /\ Gateway._whispered_accounts g' = Gateway.AccountList ["someone"]
    /\ Gateway._whispers_this_second g' = 0 + 1
    /\ Gateway._whispers_this_minute g' = 0 + 1
    /\ Gateway._join_sent g' = 0 + 1
    /\ Gateway.written (Gateway._socket g')
       = [] ++ [Gateway.terminated ("PRIVMSG #jtv :.w " +:+ "someone" +:+ " " +:+ "hi")].
Proof.
  apply (known_recipient_does_not_count "someone" "hi" ["someone"]
           (Gateway.set_whispered_accounts (Gateway.AccountList ["someone"]) Gateway.fresh)).
  - reflexivity.
  - apply (bool_decide_unpack _). vm_compute. exact I.
  - vm_compute. lia.
  - vm_compute. lia.
  - vm_compute. lia.
Defined.

(** A whisper that finds the count of the minute at its limit is
    suspended on the reset of the minute alone.  When that reset comes
    the whisper is sent from the gateway as it then is, with no second
    look at any limit: even with the count of the second at its limit. *)
Theorem whisper_waits_once user text g :
  (exists l, Gateway._whispered_accounts g = Gateway.AccountList l) ->
  Gateway._whisper_minute_limit <= Gateway._whispers_this_minute g ->
  exists k,
    Gateway.send_whisper_message user text g
    = Gateway.Blocked Gateway.on_whisper_minute_reset k
    /\ forall g2 l2,
         Gateway._whispered_accounts g2 = Gateway.AccountList l2 ->
         Gateway._join_sent g2 < Gateway._join_limit ->
         exists g',
           k g2 = Gateway.Done tt g'
           /\ Gateway._whispers_this_second g' = Gateway._whispers_this_second g2 + 1
           /\ Gateway.written (Gateway._socket g')
              = Gateway.written (Gateway._socket g2)
                ++ [Gateway.terminated ("PRIVMSG #jtv :.w " +:+ user +:+ " " +:+ text)].
Proof.
  intros [l Hl] Hm.
  unfold Gateway.send_whisper_message, Gateway.bind.
  rewrite (can_whisper_decides user l g Hl).
  rewrite (proj2 (Nat.leb_le _ _) Hm).
  rewrite andb_false_r. cbn [negb andb Gateway.pbind Gateway.when].
  unfold Gateway.wait_for_whisper, Gateway.bind, Gateway.gets. cbn [Gateway.pbind].
  rewrite (proj2 (Nat.leb_le _ _) Hm).
  unfold Gateway.wait_for_signal. cbn [Gateway.pbind].
  eexists. split; [reflexivity|].
  intros g2 l2 Hl2 Hj2. cbn beta.
  rewrite send_raw_message_below_capacity by exact Hj2. cbn [Gateway.pbind].
  rewrite (increment_whisper_list user l2) by exact Hl2.
  eexists. split; [reflexivity|].
  destruct (bool_decide (user ∈ l2)); split; reflexivity.
Qed.

Lemma whisper_waits_once_witness :
  exists k,
    Gateway.send_whisper_message "someone" "hi"
      (Gateway.set_whispers_this_minute 200 Gateway.fresh)
    = Gateway.Blocked Gateway.on_whisper_minute_reset k
    /\ exists g',
         k (Gateway.set_whispers_this_second 3 Gateway.fresh) = Gateway.Done tt g'
         /\ Gateway._whispers_this_second g' = 4.
Proof.
  destruct (whisper_waits_once "someone" "hi"
              (Gateway.set_whispers_this_minute 200 Gateway.fresh))
    as (k & Hk & Hr).
  - exists []. reflexivity.
  - vm_compute. lia.
  - exists k. split; [exact Hk|].
    destruct (Hr (Gateway.set_whispers_this_second 3 Gateway.fresh) [])
      as (g' & Hd & Hs & _).
    + reflexivity.
    + vm_compute. lia.
    + exists g'. split; [exact Hd|exact Hs].
Defined.

Section ChannelFacts.
Import Gateway Commands.
Local Open Scope gw_scope.

Lemma remove_first_appended channel l :
  channel ∉ l -> remove_first channel (l ++ [channel]) = l.
Proof.
  induction l as [|y l IH]; intros Hn; cbn [app remove_first].
  - by rewrite String.eqb_refl.
  - apply not_elem_of_cons in Hn as [Hne Hn].
    destruct (String.eqb_spec y channel) as [->|_]; [done|].
    by rewrite IH.
Qed.

Lemma remove_first_subset channel x l : x ∈ remove_first channel l -> x ∈ l.
Proof.
  induction l as [|y l IH]; cbn [remove_first]; [done|].
  destruct (String.eqb y channel).
  - intros H. by apply list_elem_of_further.
  - intros [->|H]%elem_of_cons; [apply list_elem_of_here|].
    apply list_elem_of_further, IH, H.
Qed.

Lemma remove_first_NoDup channel l :
  NoDup l -> NoDup (remove_first channel l) /\ channel ∉ remove_first channel l.
Proof.
  induction 1 as [|y l Hy Hl IH]; cbn [remove_first].
  - split; [constructor|]. apply not_elem_of_nil.
  - destruct (String.eqb_spec y channel) as [->|Hne].
    + split; [exact Hl|exact Hy].
    + destruct IH as [IH1 IH2]. split.
      * constructor; [|exact IH1]. intros H. apply Hy. eapply remove_first_subset, H.
      * apply not_elem_of_cons. split; [congruence|exact IH2].
Qed.

End ChannelFacts.

(** Joining a channel that is not in the list and leaving it again
    brings the list back to what it was; the two calls send the JOIN and
    the PART line, in that order. *)
Theorem join_then_part_restores_the_channels channel g :
  channel ∉ Gateway.channels g ->
  Gateway._join_sent g + 1 < Gateway._join_limit ->
  exists g1 g2,
    Gateway.join channel g = Gateway.Done tt g1
    /\ Gateway.channels g1 = Gateway.channels g ++ [channel]
    /\ Gateway.part channel g1 = Gateway.Done tt g2
    /\ Gateway.channels g2 = Gateway.channels g
    /\ Gateway.written (Gateway._socket g2)
       = Gateway.written (Gateway._socket g)
         ++ [Gateway.terminated ("JOIN #" +:+ channel);
             Gateway.terminated ("PART #" +:+ channel)].
Proof.
  intros Hn Hj. eexists. eexists. split_and!.
  - apply join_below_capacity. lia.
  - cbv zeta. rewrite bool_decide_eq_false_2 by exact Hn. reflexivity.
  - apply part_below_capacity. cbv zeta.
    rewrite bool_decide_eq_false_2 by exact Hn. cbn. lia.
  - cbv zeta. rewrite (bool_decide_eq_false_2 (channel ∈ Gateway.channels g)) by exact Hn.
    cbn [Gateway.channels Gateway.set_channels Gateway.after_join_send
         Gateway.set_socket Gateway.set_join_sent].
    rewrite bool_decide_eq_true_2 by (apply elem_of_app; right; apply list_elem_of_here).
    cbn [Gateway.channels Gateway.set_channels].
    apply remove_first_appended, Hn.
  - cbv zeta. rewrite (bool_decide_eq_false_2 (channel ∈ Gateway.channels g)) by exact Hn.
    cbn [Gateway.channels Gateway.set_channels Gateway.after_join_send
         Gateway.set_socket Gateway.set_join_sent].
    rewrite bool_decide_eq_true_2 by (apply elem_of_app; right; apply list_elem_of_here).
    cbn. rewrite <- app_assoc. reflexivity.
Qed.

Lemma join_then_part_restores_the_channels_witness :
  exists g1 g2,
    Gateway.join "foo" Gateway.fresh = Gateway.Done tt g1
    /\ Gateway.channels g1 = [] ++ ["foo"]
    /\ Gateway.part "foo" g1 = Gateway.Done tt g2
    /\ Gateway.channels g2 = []
    /\ Gateway.written (Gateway._socket g2)
       = [] ++ [Gateway.terminated ("JOIN #" +:+ "foo");
                Gateway.terminated ("PART #" +:+ "foo")].
Proof.
  apply (join_then_part_restores_the_channels "foo" Gateway.fresh).
  - apply (bool_decide_unpack _). vm_compute. exact I.
  - vm_compute. lia.
Defined.

(** The list of channels stays free of duplicates under [join] and
    [part], and after [part] the channel is no longer in it. *)
Theorem channels_stay_duplicate_free channel g :
  Gateway._join_sent g < Gateway._join_limit ->
  NoDup (Gateway.channels g) ->
  (exists g', Gateway.join channel g = Gateway.Done tt g'
              /\ NoDup (Gateway.channels g')
              /\ channel ∈ Gateway.channels g')
  /\ (exists g', Gateway.part channel g = Gateway.Done tt g'
                 /\ NoDup (Gateway.channels g')
                 /\ channel ∉ Gateway.channels g').
Proof.
  intros Hj Hd. split.
  - eexists. split; [apply join_below_capacity, Hj|]. cbv zeta.
    destruct (bool_decide (channel ∈ Gateway.channels g)) eqn:E.
    + apply bool_decide_eq_true in E. split; [exact Hd|exact E].
    + apply bool_decide_eq_false in E. cbn [Gateway.channels Gateway.set_channels]. split.
      * apply NoDup_app. split_and!; [exact Hd| |apply NoDup_singleton].
        intros x Hx ->%list_elem_of_singleton. exact (E Hx).
      * apply elem_of_app. right. apply list_elem_of_here.
  - eexists. split; [apply part_below_capacity, Hj|]. cbv zeta.
    destruct (bool_decide (channel ∈ Gateway.channels g)) eqn:E.
    + cbn [Gateway.channels Gateway.set_channels]. apply remove_first_NoDup, Hd.
    + apply bool_decide_eq_false in E. split; [exact Hd|exact E].
Qed.

Lemma channels_stay_duplicate_free_witness :
  let g := Gateway.set_channels ["foo"; "bar"] Gateway.fresh in
  (exists g', Gateway.join "foo" g = Gateway.Done tt g'
              /\ NoDup (Gateway.channels g')
              /\ "foo" ∈ Gateway.channels g')
  /\ (exists g', Gateway.part "foo" g = Gateway.Done tt g'
                 /\ NoDup (Gateway.channels g')
                 /\ "foo" ∉ Gateway.channels g').
Proof.
  apply (channels_stay_duplicate_free "foo"
           (Gateway.set_channels ["foo"; "bar"] Gateway.fresh)).
  - vm_compute. lia.
  - apply (bool_decide_unpack _). vm_compute. exact I.
Defined.

(** The token [__init__] stores: without the keyword it is the default
    [foobar]; a given token that is [foobar] or starts with [oauth] is
    stored as it is; any other given token is stored with the prefix
    [oauth:] before it.  So the stored token is always [foobar] or starts
    with [oauth]. *)
Theorem init_token_is_default_or_oauth kw_whisper_reset kw_nick kw_token kw_host kw_port :
  let g := Gateway.init kw_whisper_reset kw_nick kw_token kw_host kw_port in
  (kw_token = None -> Gateway.token g = "foobar")
  /\ (forall given,
        kw_token = Some given ->
        (given = "foobar" \/ Py.startswith given "oauth" = true ->
         Gateway.token g = given)
        /\ (given <> "foobar" -> Py.startswith given "oauth" = false ->
            Gateway.token g = "oauth:" +:+ given))
  /\ (Gateway.token g = "foobar" \/ Py.startswith (Gateway.token g) "oauth" = true).
Proof.
  cbv zeta. unfold Gateway.init. cbn [Gateway.token].
  destruct kw_token as [tok|].
  - change (default "foobar" (Some tok)) with tok.
    destruct (String.eqb_spec tok "foobar") as [->|Hne]; cbn [negb andb].
    + split_and!; [discriminate| |left; reflexivity].
      intros given [= <-]. split; [reflexivity|]. intros H. by destruct H.
    + destruct (Py.startswith tok "oauth") eqn:E; cbn [negb].
      * split_and!; [discriminate| |right; exact E].
        intros given [= <-]. split; [reflexivity|]. intros _ H. rewrite E in H. discriminate.
      * split_and!; [discriminate| |right; reflexivity].
        intros given [= <-]. split; [|reflexivity].
        intros [H|H]; [by destruct Hne|]. rewrite E in H. discriminate.
  - split_and!; [reflexivity|discriminate|left; reflexivity].
Qed.

Lemma init_token_is_default_or_oauth_witness :
  Gateway.token (Gateway.init None None (Some "abc123") None None) = "oauth:" +:+ "abc123"
  /\ Gateway.token (Gateway.init None None (Some "oauth:abc123") None None) = "oauth:abc123".
Proof.
  split.
  - destruct (init_token_is_default_or_oauth None None (Some "abc123") None None)
      as (_ & H & _).
    destruct (H "abc123" eq_refl) as [_ H2]. apply H2.
    + discriminate.
    + reflexivity.
  - destruct (init_token_is_default_or_oauth None None (Some "oauth:abc123") None None)
      as (_ & H & _).
    destruct (H "oauth:abc123" eq_refl) as [H1 _]. apply H1.
    right. reflexivity.
Defined.

Section ConnectionFacts.
Import Gateway Commands.
Local Open Scope gw_scope.

Lemma rejoin_lines_written l :
  forall g,
    _join_sent g + length l <= _join_limit ->
    exists g',
      for_each l (fun channel => send_raw_message ("JOIN #" +:+ channel) None) g
      = Done tt g'
      /\ written (_socket g')
         = written (_socket g) ++ ((fun c => terminated ("JOIN #" +:+ c)) <$> l).
Proof.
  induction l as [|channel l IH]; intros g H; cbn [for_each length fmap list_fmap] in *.
  - exists g. split; [reflexivity|]. by rewrite app_nil_r.
  - unfold bind. rewrite send_raw_message_below_capacity by lia. cbn [pbind].
    destruct (IH (after_join_send (terminated ("JOIN #" +:+ channel)) g))
      as (g' & Hd & Hw).
    + change (_join_sent (after_join_send _ g)) with (_join_sent g + 1). lia.
    + exists g'. split; [exact Hd|]. rewrite Hw.
      change (written (_socket (after_join_send ?x g))) with (written (_socket g) ++ [x]).
      by rewrite <- app_assoc.
Qed.

Lemma handshake_written g :
  isValid (_socket g) = true ->
  _join_sent g + 5 + length (channels g) <= _join_limit ->
  exists g',
    process_connection g = Done tt g'
    /\ written (_socket g')
       = written (_socket g)
         ++ (terminated <$> ["PASS " +:+ token g; "NICK " +:+ nick g;
                             "CAP REQ :twitch.tv/membership";
                             "CAP REQ :twitch.tv/tags";
                             "CAP REQ :twitch.tv/commands"])
         ++ ((fun c => terminated ("JOIN #" +:+ c)) <$> channels g).
Proof.
  intros Hv H. unfold process_connection, bind, gets. cbn [pbind].
  rewrite Hv. cbn [negb].
  destruct (_join_started g); cbn [negb when ret pbind];
    unfold bind, singleShot, modify; cbn [pbind];
    do 5 (rewrite send_raw_message_below_capacity
            by (cbn [_join_sent after_join_send set_join_sent set_socket
                     set_timer set_join_started]; lia);
          cbn [pbind]);
    match goal with
    | |- context [for_each ?l ?f ?g5] =>
        destruct (rejoin_lines_written l g5) as (g' & Hd & Hw);
          [cbn [_join_sent after_join_send set_join_sent set_socket
                set_timer set_join_started channels]; lia|];
        exists g'; split; [exact Hd|]; rewrite Hw;
        cbn [written _socket after_join_send set_join_sent set_socket
             set_timer set_join_started channels token nick fmap list_fmap];
        rewrite <- !app_assoc; reflexivity
    end.
Qed.

End ConnectionFacts.

(** The handshake.  On a socket that is not valid [process_connection]
    does nothing.  On a valid one, with room in the join bucket, it
    writes the PASS line with the token, the NICK line, the three
    capability requests and one JOIN line for each remembered channel,
    in that order and each terminated. *)
Theorem handshake_lines_in_order g :
  (Gateway.isValid (Gateway._socket g) = false ->
   Gateway.process_connection g = Gateway.Done tt g)
  /\ (Gateway.isValid (Gateway._socket g) = true ->
      Gateway._join_sent g + 5 + length (Gateway.channels g) <= Gateway._join_limit ->
      exists g',
        Gateway.process_connection g = Gateway.Done tt g'
        /\ Gateway.written (Gateway._socket g')
           = Gateway.written (Gateway._socket g)
             ++ (Gateway.terminated <$>
                   ["PASS " +:+ Gateway.token g; "NICK " +:+ Gateway.nick g;
                    "CAP REQ :twitch.tv/membership";
                    "CAP REQ :twitch.tv/tags";
                    "CAP REQ :twitch.tv/commands"])
             ++ ((fun c => Gateway.terminated ("JOIN #" +:+ c)) <$> Gateway.channels g)).
Proof.
  split.
  - intros Hv. unfold Gateway.process_connection, Gateway.bind, Gateway.gets.
    cbn [Gateway.pbind]. rewrite Hv. reflexivity.
  - apply handshake_written.
Qed.

Lemma handshake_lines_in_order_witness :
  let s := {| Gateway.isValid := true; Gateway.opened := [];
              Gateway.written := []; Gateway.closed := 0 |} in
  let g := Gateway.set_socket s (Gateway.set_channels ["foo"] Gateway.fresh) in
  exists g',
    Gateway.process_connection g = Gateway.Done tt g'
    /\ Gateway.written (Gateway._socket g')
       = ["PASS foobar" +:+ Py.CRLF; "NICK justinfan2389" +:+ Py.CRLF;
          "CAP REQ :twitch.tv/membership" +:+ Py.CRLF;
          "CAP REQ :twitch.tv/tags" +:+ Py.CRLF;
          "CAP REQ :twitch.tv/commands" +:+ Py.CRLF;
          "JOIN #foo" +:+ Py.CRLF].
Proof.
  cbv zeta.
  destruct (handshake_lines_in_order
              (Gateway.set_socket
                 {| Gateway.isValid := true; Gateway.opened := [];
                    Gateway.written := []; Gateway.closed := 0 |}
                 (Gateway.set_channels ["foo"] Gateway.fresh))) as [_ H].
  destruct H as (g' & Hd & Hw).
  - reflexivity.
  - vm_compute. lia.
  - exists g'. split; [exact Hd|]. rewrite Hw. vm_compute. reflexivity.
Defined.



Section ReconnectFacts.
Import Gateway Commands.
Local Open Scope gw_scope.

Lemma reconnect_loop_succeeds connects k :
  forall fuel i g,
    isValid (_socket g) = false ->
    _reconnect_attempts g + k <= 5 ->
    (forall j msec, j < k -> connects (i + j) msec = false) ->
    (forall msec, connects (i + k) msec = true) ->
    k + 1 < fuel ->
    exists g',
      reconnect_loop connects fuel i g = Some (Done tt g')
      /\ opened (_socket g') = opened (_socket g) ++ replicate (S k) (url g)
      /\ _reconnect_attempts g' = _reconnect_attempts g + k + 1
      /\ isValid (_socket g') = true
      /\ _should_reconnect g' = _should_reconnect g.
Proof.
  induction k as [|k IH]; intros fuel i g Hv Ha Hfail Hok Hf.
  - destruct fuel as [|[|fuel]]; [lia|lia|].
    cbn [reconnect_loop]. rewrite Hv.
    rewrite (proj2 (Nat.ltb_ge 5 (_reconnect_attempts g))) by lia.
    unfold bind, socket_open, wait_for_connected_or_timeout, modify. cbn [pbind].
    cbn [isValid _socket set_socket set_reconnect_attempts].
    replace (i + 0) with i in Hok by lia. rewrite Hok.
    eexists. split; [reflexivity|]. cbn. split_and!; try reflexivity. lia.
  - destruct fuel as [|fuel]; [lia|].
    cbn [reconnect_loop]. rewrite Hv.
    rewrite (proj2 (Nat.ltb_ge 5 (_reconnect_attempts g))) by lia.
    unfold bind, socket_open, wait_for_connected_or_timeout, modify. cbn [pbind].
    match goal with |- context [reconnect_loop _ _ _ ?g1] => set (g1' := g1) end.
    destruct (IH fuel (S i) g1') as (g' & Hl & Ho & Hr & Hv' & Hs).
    + subst g1'. cbn. replace i with (i + 0) by lia. apply Hfail. lia.
    + subst g1'. cbn. lia.
    + intros j msec Hj. replace (S i + j) with (i + S j) by lia. apply Hfail. lia.
    + intros msec. replace (S i + k) with (i + S k) by lia. apply Hok.
    + lia.
    + exists g'. split; [exact Hl|]. rewrite Ho, Hr, Hv', Hs.
      subst g1'. cbn. rewrite <- app_assoc. split_and!; try reflexivity. lia.
Qed.

End ReconnectFacts.

(** A re-open that succeeds after [k] failed attempts leaves the attempt
    counter at what it was plus [k + 1]: success does not put it back to
    zero.  It switches reconnection off, so that when the socket drops
    again the disconnection is not followed by any attempt. *)
Theorem reconnection_success_keeps_the_count k fuel g :
  Gateway._should_reconnect g = true ->
  Gateway.isValid (Gateway._socket g) = false ->
  Gateway._reconnect_attempts g + k <= 5 ->
  k + 1 < fuel ->
  exists g',
    Gateway.process_disconnection (Commands.connects_after k) fuel g
    = Some (Gateway.Done tt g')
    /\ Gateway.opened (Gateway._socket g')
       = Gateway.opened (Gateway._socket g) ++ replicate (S k) (Gateway.url g)
    /\ Gateway._reconnect_attempts g' = Gateway._reconnect_attempts g + k + 1
    /\ Gateway.isValid (Gateway._socket g') = true
    /\ Gateway._should_reconnect g' = false
    /\ forall connects fuel',
         Gateway.process_disconnection connects fuel' (Commands.drop_socket g')
         = Some (Gateway.Done tt (Commands.drop_socket g')).
Proof.
  intros Hs Hv Ha Hf.
  destruct (reconnect_loop_succeeds (Commands.connects_after k) k fuel 0 g)
    as (g' & Hl & Ho & Hr & Hv' & Hs'); [exact Hv|exact Ha| | |exact Hf|].
  - intros j msec Hj. unfold Commands.connects_after. apply Nat.leb_gt. lia.
  - intros msec. unfold Commands.connects_after. apply Nat.leb_le. lia.
  - eexists. unfold Gateway.process_disconnection. rewrite Hs, Hl. cbn [negb].
    rewrite Hv'. split; [reflexivity|]. split_and!; [exact Ho|exact Hr|exact Hv'|reflexivity|].
    intros connects fuel'. reflexivity.
Qed.

Lemma reconnection_success_keeps_the_count_witness :
  exists g',
    Gateway.process_disconnection (Commands.connects_after 2) 4 Gateway.fresh
    = Some (Gateway.Done tt g')
    /\ Gateway.opened (Gateway._socket g')
       = [] ++ replicate 3 (Gateway.url Gateway.fresh)
    /\ Gateway._reconnect_attempts g' = 0 + 2 + 1
    /\ Gateway.isValid (Gateway._socket g') = true
    /\ Gateway._should_reconnect g' = false
    /\ forall connects fuel',
         Gateway.process_disconnection connects fuel' (Commands.drop_socket g')
         = Some (Gateway.Done tt (Commands.drop_socket g')).
Proof.
  apply (reconnection_success_keeps_the_count 2 4 Gateway.fresh).
  - reflexivity.
  - reflexivity.
  - vm_compute. lia.
  - lia.
Defined.

(** [reconnect] on a valid socket closes it and leaves reconnection
    switched on; on a socket that is not valid, with a host and a port
    known, it opens the socket for [host:port] and leaves reconnection
    switched off. *)
Theorem reconnect_closes_or_opens g :
  (Gateway.isValid (Gateway._socket g) = true ->
   exists g',
     Gateway.reconnect g = Gateway.Done tt g'
     /\ Gateway.isValid (Gateway._socket g') = false
     /\ Gateway.closed (Gateway._socket g') = S (Gateway.closed (Gateway._socket g))
     /\ Gateway.opened (Gateway._socket g') = Gateway.opened (Gateway._socket g)
     /\ Gateway._should_reconnect g' = true)
  /\ (Gateway.isValid (Gateway._socket g) = false ->
      Gateway.host g <> EmptyString ->
      Gateway.port g <> 0%N ->
      exists g',
        Gateway.reconnect g = Gateway.Done tt g'
        /\ Gateway.opened (Gateway._socket g')
           = Gateway.opened (Gateway._socket g) ++ [Gateway.url g]
        /\ Gateway.closed (Gateway._socket g') = Gateway.closed (Gateway._socket g)
        /\ Gateway._should_reconnect g' = false).
Proof.
  split.
  - intros Hv. unfold Gateway.reconnect, Gateway.catch, Gateway.bind, Gateway.modify,
      Gateway.disconnect_, Gateway.gets, Gateway.bind.
    cbn [Gateway.pbind Gateway.pcatch Gateway._socket Gateway.set_should_reconnect].
    rewrite Hv. eexists. split; [reflexivity|]. split_and!; reflexivity.
  - intros Hv Hh Hp.
    unfold Gateway.reconnect, Gateway.catch, Gateway.bind, Gateway.modify,
      Gateway.disconnect_, Gateway.gets, Gateway.bind.
    cbn [Gateway.pbind Gateway.pcatch Gateway._socket Gateway.set_should_reconnect].
    rewrite Hv. cbn [negb Gateway.raise Gateway.pcatch Gateway.is_ConnectionError
                     Gateway.pbind].
    unfold Gateway.connect_, Gateway.bind, Gateway.gets. cbn [Gateway.pbind].
    cbn [Gateway.host Gateway.port Gateway.set_should_reconnect].
    rewrite (proj2 (String.eqb_neq _ _) Hh).
    cbn [andb Gateway.ret Gateway.pbind Gateway.port Gateway.set_should_reconnect].
    rewrite (proj2 (N.eqb_neq _ _) Hp).
    eexists. split; [reflexivity|]. split_and!; reflexivity.
Qed.

Lemma reconnect_closes_or_opens_witness :
  exists g',
    Gateway.reconnect Gateway.fresh = Gateway.Done tt g'
    /\ Gateway.opened (Gateway._socket g') = [] ++ ["irc-ws.chat.twitch.tv:443"]
    /\ Gateway.closed (Gateway._socket g') = 0
    /\ Gateway._should_reconnect g' = false.
Proof.
  destruct (reconnect_closes_or_opens Gateway.fresh) as [_ H].
  apply H.
  - reflexivity.
  - vm_compute. discriminate.
  - vm_compute. discriminate.
Defined.



(** * Instances of the general facts about the buckets and the resets *)

Lemma chat_count_within_limit_without_reset_witness :
  Gateway._priv_sent
    (Gateway.gw (Nat.iter 25 (Gateway.invoke Gateway.wait_and_increment_priv)
                   (Gateway.start Gateway.fresh)))
  <= Gateway._priv_limit.
Proof.
  apply (chat_count_within_limit_without_reset 25 (Gateway.start Gateway.fresh)).
  vm_compute. lia.
Defined.

Lemma whisper_to_new_recipient_at_limit_witness :
  let l := Gateway.recipient <$> seq 0 40 in
  let g := Gateway.set_whispered_accounts (Gateway.AccountList l) Gateway.fresh in
  exists g',
    Gateway.send_whisper_message "someone" "hi" g = Gateway.Done tt g'
    /\ Gateway.written (Gateway._socket g')
       = Gateway.written (Gateway._socket g)
         ++ [Gateway.terminated ("PRIVMSG #jtv :.w " +:+ "someone" +:+ " " +:+ "hi")]
    /\ Gateway._whispered_accounts g' = Gateway.AccountList (l ++ ["someone"]).
Proof.
  apply (whisper_to_new_recipient_at_limit "someone" "hi"
           (Gateway.recipient <$> seq 0 40)
           (Gateway.set_whispered_accounts
              (Gateway.AccountList (Gateway.recipient <$> seq 0 40)) Gateway.fresh)).
  - reflexivity.
  - apply (bool_decide_unpack _). vm_compute. exact I.
  - vm_compute. lia.
  - vm_compute. lia.
  - vm_compute. lia.
  - vm_compute. lia.
Defined.

Lemma reset_whisper_daily_returns_when_due_witness :
  let w := Gateway.start (Gateway.fresh_until (1000 * Gateway.DAY)) in
  Gateway.reset_whisper_daily (1000 * Gateway.DAY + 1) None w = Gateway.Finished w.
Proof.
  apply (reset_whisper_daily_returns_when_due
           (1000 * Gateway.DAY + 1) (1000 * Gateway.DAY) None
           (Gateway.start (Gateway.fresh_until (1000 * Gateway.DAY)))).
  - reflexivity.
  - unfold Gateway.DAY. lia.
Defined.

Lemma reset_whisper_daily_runs_early_witness :
  exists w',
    Gateway.reset_whisper_daily (998 * Gateway.DAY) None
      (Gateway.start (Gateway.fresh_until (1000 * Gateway.DAY)))
    = Gateway.Finished w'
    /\ Gateway._whispered_accounts (Gateway.gw w') = Gateway.AccountInt 0
    /\ Gateway.whisper_reset (Gateway.gw w')
       = Some (998 * Gateway.DAY + Gateway.DAY)%Z.
Proof.
  apply (reset_whisper_daily_runs_early (998 * Gateway.DAY) (1000 * Gateway.DAY)
           (Gateway.start (Gateway.fresh_until (1000 * Gateway.DAY)))).
  - reflexivity.
  - reflexivity.
  - unfold Gateway.DAY. lia.
Defined.
